(** * Documentation build pipeline (larshelg/bot2): a shallow embedding

    The development follows the scripts of the repository:
    - [scripts/build-mcp.js]      the metadata-target emitter,
    - [scripts/build-gitbook.js]  the publishing emitter,
    - [scripts/mcp-build-hook.sh] the staleness check before a rebuild,
    - [scripts/file-watcher.js]   the debounced rebuild trigger.

    File contents and names are strings of bytes, a directory is the list of
    its entries in enumeration order, an output directory is a finite map from
    relative path to content, and the [async] functions are written in a
    small monad that threads the output directory and the console and stops
    at the first exception.

    The names in a directory and in the manifest are single path components.
    The exceptions that are modelled are a configuration file that cannot be
    read, a source that is a directory where a file is read, and front matter
    that does not parse; other failures of the file system are not. *)

From Stdlib Require Import ZArith Lia Ascii.
From stdpp Require Import base option list strings gmap.

(** ** JavaScript string helpers *)
Module Js.

(** The line feed character, written [\n] in the scripts. *)
Definition LF : string := String "010"%char "".

(** [s.startsWith(p)] *)
Definition startsWith (s p : string) : bool := String.prefix p s.

(** [s.endsWith(p)] *)
Definition endsWith (s p : string) : bool :=
  String.prefix (String.rev p) (String.rev s).

(** [s.charAt(n)]: the empty string out of range. *)
Definition charAt (s : string) (n : nat) : string :=
  match String.get n s with
  | Some c => String c ""
  | None => ""
  end.

(** [l.join(sep)] *)
Definition join (sep : string) (l : list string) : string :=
  String.concat sep l.

(** [s.slice(n)] for [0 <= n]. *)
Fixpoint slice_from (n : nat) (s : string) : string :=
  match n, s with
  | O, _ => s
  | S n', String _ s' => slice_from n' s'
  | S _, EmptyString => ""
  end.


(** The separator [/] occurs in a path. *)
Fixpoint has_slash (s : string) : bool :=
  match s with
  | EmptyString => false
  | String c s' => Ascii.eqb c "/"%char || has_slash s'
  end.

End Js.

(** ** The file system as the scripts see it *)
Module Fs.

(** A directory entry is a regular file, or a folder given by the files
    below it (path relative to the folder, content). *)
Inductive entry :=
| File (content : string)
| Folder (files : list (string * string)).

(** A directory: its entries by name, in [readdir] order. *)
Definition dir := list (string * entry).

Fixpoint lookup_entry (name : string) (d : dir) : option entry :=
  match d with
  | [] => None
  | (n, e) :: d' => if String.eqb n name then Some e else lookup_entry name d'
  end.

(** [fs.readdir] *)
Definition readdir (d : dir) : list string := d.*1.

(** What the console receives. *)
Inductive message :=
| Log (text : string)
| Processed (category file : string)
| Copied (file sourceDir : string)
| Generated (file : string)
| DirectoryNotFound (category : string)
| WarnNotFound (sourceDir file : string)
| ErrorBuilding (cause : string).

(** The mutable part of a run: the build directory (relative path to
    content) and the console. *)
Record world := World {
  out : gmap string string;
  console : list message
}.

(** An [async] computation: [inr cause] is a thrown exception. *)
Definition io (A : Type) : Type := world -> (A + string) * world.

Definition ret {A} (a : A) : io A := fun w => (inl a, w).
Definition throw {A} (cause : string) : io A := fun w => (inr cause, w).
Definition bind {A B} (m : io A) (k : A -> io B) : io B :=
  fun w =>
    match m w with
    | (inl a, w') => k a w'
    | (inr e, w') => (inr e, w')
    end.

(** [console.log], [console.warn], [console.error] *)
Definition tell (m : message) : io unit :=
  fun w => (inl tt, World (out w) (console w ++ [m])).

(** [fs.emptyDir(BUILD_DIR)] (after [fs.ensureDir]) *)
Definition emptyDir : io unit :=
  fun w => (inl tt, World ∅ (console w)).

(** [fs.writeFile(path.join(BUILD_DIR, name), content)] *)
Definition writeFile (name content : string) : io unit :=
  fun w => (inl tt, World (<[name := content]> (out w)) (console w)).

(** [fs.readFile(p, 'utf8')]: reading a folder throws. *)
Definition readFile (e : entry) : io string :=
  match e with
  | File c => ret c
  | Folder _ => throw "EISDIR: illegal operation on a directory, read"
  end.

(** [for (const x of l) { await body(x) }] *)
Fixpoint for_of {A} (l : list A) (body : A -> io unit) : io unit :=
  match l with
  | [] => ret tt
  | x :: l' => bind (body x) (fun _ => for_of l' body)
  end.

(** [fs.copy(source, path.join(BUILD_DIR, dest))]: a file is copied to
    [dest], a folder file by file below [dest]. *)
Definition copy (e : entry) (dest : string) : io unit :=
  match e with
  | File c => writeFile dest c
  | Folder files =>
      for_of files (fun '(rel, c) => writeFile (dest +:+ "/" +:+ rel) c)
  end.

(** [fs.readFile(path.join(d, file), 'utf8')] *)
Definition readFileIn (d : dir) (file : string) : io string :=
  match lookup_entry file d with
  | Some e => readFile e
  | None => throw "ENOENT: no such file or directory, open"
  end.

(** How the process ends: normally, or by [process.exit(1)]. *)
Inductive status := Success | Exit1.

(** [try { ... } catch (error) { console.error(...); process.exit(1) }] *)
Definition try_catch (body : io unit) (w : world) : status * world :=
  match body w with
  | (inl _, w') => (Success, w')
  | (inr cause, w') =>
      (Exit1, World (out w') (console w' ++ [ErrorBuilding cause]))
  end.

(** [fs.readJson(CONFIG_PATH)]: [None] is a missing or unparsable file. *)
Definition readJson {A} (onDisk : option A) : io A :=
  match onDisk with
  | Some c => ret c
  | None => throw "ENOENT: no such file or directory, open"
  end.

(** A computation whose result and build directory do not depend on what
    the console holds. *)
Definition console_blind {A} (m : io A) : Prop :=
  ∀ o l1 l2,
    (m (World o l1)).1 = (m (World o l2)).1 ∧
    out (m (World o l1)).2 = out (m (World o l2)).2.

(** A computation whose result and build directory do not depend on the
    world it starts in. *)
Definition forgets {A} (m : io A) : Prop :=
  ∀ w1 w2, (m w1).1 = (m w2).1 ∧ out (m w1).2 = out (m w2).2.

(** A build directory that holds nothing, and a silent console. *)
Definition fresh : world := World ∅ [].

(** A computation that keeps a property of the build directory, however it
    ends. *)
Definition preserves {A} (P : gmap string string → Prop) (m : io A) : Prop :=
  ∀ w, P (out w) → P (out (m w).2).

(** A computation that throws, whatever the world it starts in. *)
Definition always_throws {A} (m : io A) : Prop :=
  ∀ w, ∃ cause w', m w = (inr cause, w').

End Fs.

Declare Scope io_scope.
Delimit Scope io_scope with io.
Notation "x <~ m ;; k" := (Fs.bind m (fun x => k))
  (at level 100, m at next level, right associativity) : io_scope.
Notation "m ;; k" := (Fs.bind m (fun _ => k))
  (at level 100, right associativity) : io_scope.

(** ** Front matter: the metadata records and [gray-matter]'s [stringify]

    gray-matter is a dependency of the repository (package.json asks for
    4.0.3 or later), not a part of it. [matter] and [stringify] follow its
    index.js and lib/stringify.js for the call the emitter makes,
    [matter.stringify(content, frontmatter)] with a string and a record; the
    YAML engine stays a parameter. *)
Module Matter.
Import Js.

(** A value of a metadata record as the configuration gives it. *)
Inductive value :=
| VStr (s : string)
| VBool (b : bool)
| VList (items : list string).

(** A metadata record: a JSON object, its keys in insertion order. *)
Definition metadata := list (string * value).

Fixpoint get (k : string) (m : metadata) : option value :=
  match m with
  | [] => None
  | (k', v) :: m' => if String.eqb k' k then Some v else get k m'
  end.

Definition has (m : metadata) (k : string) : bool :=
  match get k m with Some _ => true | None => false end.

(** [Object.assign({}, target, source)]: the keys of [target] in their
    order, with the value of [source] where it has the key, then the keys
    only [source] has. *)
Definition assign (target source : metadata) : metadata :=
  map (fun '(k, v) => (k, default v (get k source))) target
  ++ filter (fun kv => has target kv.1 = false) source.

(** The fields of gray-matter's file object that [stringify] reads. *)
Record file := MkFile { data : metadata; content : string }.

(** The byte-order mark U+FEFF as it is encoded in a file. *)
Definition BOM : string :=
  String "239"%char (String "187"%char (String "191"%char "")).

(** [strip-bom-string] *)
Definition stripBom (s : string) : string :=
  if startsWith s BOM then slice_from 3 s else s.

(** [newline] of gray-matter's lib/stringify.js *)
Definition newline (str : string) : string :=
  if endsWith str LF then str else str +:+ LF.

Section Engine.
(** The YAML engine of gray-matter is taken as given:
    [yaml d] is [engine.stringify(d).trim()], and [parse_block str] is
    what [parseMatter] returns for a string that opens with a
    front-matter delimiter, [None] when the YAML parser throws. *)
Variable yaml : metadata -> string.
Variable parse_block : string -> option file.

(** [matter(input)]: a string that does not open with the delimiter
    [---] (or opens with four dashes) has no front matter and is its own
    content. *)
Definition matter (input : string) : option file :=
  if String.eqb input "" then Some (MkFile [] input)
  else
    let str := stripBom input in
    if negb (startsWith str "---") then Some (MkFile [] str)
    else if String.eqb (charAt str 3) "-" then Some (MkFile [] str)
    else parse_block str.

(** The header block: delimiter line, YAML lines, delimiter line. *)
Definition header (d : metadata) : string :=
  if String.eqb (yaml d) "{}" then ""
  else newline "---" +:+ newline (yaml d) +:+ newline "---".

(** [stringify(file, data)] of lib/stringify.js *)
Definition stringify_file (f : file) (d : metadata) : string :=
  header (assign (data f) d) +:+ newline (content f).

(** [matter.stringify(content, data)] with a string: the string is
    parsed first; [None] when that throws. *)
Definition stringify (input : string) (d : metadata) : option string :=
  match matter input with
  | Some f => Some (stringify_file f d)
  | None => None
  end.
End Engine.


End Matter.

(** ** scripts/build-mcp.js: the metadata-target emitter *)
Module BuildMcp.
Import Js Fs Matter.
Local Open Scope io_scope.

(** config/mcp-config.json *)
Record config := Config {
  frontmatterTemplates : gmap string metadata;
  defaultFrontmatter : metadata
}.

Section Emitter.
Variable yaml : metadata -> string.
Variable parse_block : string -> option file.
(** The text of the usage instructions, a constant of the script. *)
Variable usageContent : string.
(** docs/source: its subdirectories by name. *)
Variable SOURCE_DIR : gmap string dir.

(** [config.frontmatterTemplates[configKey] || config.defaultFrontmatter];
    a template is a record, which is truthy. *)
Definition resolve (c : config) (configKey : string) : metadata :=
  match frontmatterTemplates c !! configKey with
  | Some template => template
  | None => defaultFrontmatter c
  end.

(** [matter.stringify(content, frontmatter)] as a step of the run. *)
Definition matter_stringify (content : string) (frontmatter : metadata)
    : io string :=
  match stringify yaml parse_block content frontmatter with
  | Some text => ret text
  | None => throw "YAMLException"
  end.

(** The body of the loop of [processSharedFiles] and of
    [processMCPOnlyFiles], for the entry [file] of the directory [d]. *)
Definition processFile (category : string) (c : config) (d : dir)
    (file : string) : io unit :=
  if negb (endsWith file ".md") then ret tt
  else
    let configKey := category +:+ "/" +:+ file in
    content <~ readFileIn d file ;;
    let frontmatter := resolve c configKey in
    fileWithFrontmatter <~ matter_stringify content frontmatter ;;
    writeFile file fileWithFrontmatter ;;
    tell (Processed category file).

(** [processSharedFiles] and [processMCPOnlyFiles] differ in the
    directory name only. *)
Definition processFiles (category : string) (c : config) : io unit :=
  match SOURCE_DIR !! category with
  | None => tell (DirectoryNotFound category)
  | Some d => for_of (readdir d) (processFile category c d)
  end.

(** The file the loop body writes for the entry [file] of [d]. *)
Definition emitted_in (c : config) (category : string) (d : dir)
    (file : string) : option string :=
  match lookup_entry file d with
  | Some (File content) =>
      if endsWith file ".md"
      then stringify yaml parse_block content
             (resolve c (category +:+ "/" +:+ file))
      else None
  | _ => None
  end.

Definition emitted (c : config) (category file : string) : option string :=
  SOURCE_DIR !! category ≫= λ d, emitted_in c category d file.

(** Every entry of [d] named [*.md] is a regular file whose front matter,
    if it has any, parses. *)
Definition md_processable (d : dir) : bool :=
  forallb
    (λ file,
       negb (endsWith file ".md") ||
       match lookup_entry file d with
       | Some (File content) =>
           match matter parse_block content with Some _ => true | None => false end
       | _ => false
       end)
    (readdir d).

Definition readable (category : string) : bool :=
  match SOURCE_DIR !! category with
  | Some d => md_processable d
  | None => true
  end.



Definition processSharedFiles : config -> io unit := processFiles "shared".
Definition processMCPOnlyFiles : config -> io unit := processFiles "mcp".

Definition generateUsageInstructions : io unit :=
  writeFile "markdown-rules.md" usageContent ;;
  tell (Generated "markdown-rules.md").

Definition buildMCP (onDisk : option config) : world -> status * world :=
  try_catch (
    tell (Log "Building MCP documentation...") ;;
    c <~ readJson onDisk ;;
    emptyDir ;;
    processSharedFiles c ;;
    processMCPOnlyFiles c ;;
    generateUsageInstructions ;;
    tell (Log "MCP documentation built successfully!") ;;
    tell (Log "Output directory: docs/build/mcp")).

(** The build directory a completed run leaves: the usage instructions,
    else the file of [mcp], else the file of [shared]. *)
Definition expected_output (c : config) (p : string) : option string :=
  if String.eqb p "markdown-rules.md" then Some usageContent
  else
    match emitted c "mcp" p with
    | Some x => Some x
    | None => emitted c "shared" p
    end.
End Emitter.

End BuildMcp.

(** ** scripts/build-gitbook.js: the publishing emitter *)
Module BuildGitbook.
Import Js Fs.
Local Open Scope io_scope.

(** config/gitbook-config.json *)
Record item := Item { title : string; file : string; source : string }.
Record readme_t := Readme { readme_title : string; content : string }.
Record config := Config {
  book_title : string;
  structure : list item;
  readme : readme_t
}.

Section Emitter.
(** docs/source: its subdirectories by name. *)
Variable SOURCE_DIR : gmap string dir.
(** [new Date().toISOString().split('T')[0]]: the calendar date the
    clock shows when the README is generated. *)
Variable today : string.

(** [fs.pathExists(path.join(SOURCE_DIR, d, name))], with the entry. *)
Definition sourcePath (d name : string) : option entry :=
  SOURCE_DIR !! d ≫= lookup_entry name.

Definition readmeLink (i : item) : string :=
  "- [" +:+ title i +:+ "](" +:+ file i +:+ ")".

Definition readmeContent (c : config) : string :=
  "# " +:+ book_title c +:+ LF +:+ LF +:+
  content (readme c) +:+ LF +:+ LF +:+
  "## Table of Contents" +:+ LF +:+ LF +:+
  join LF (map readmeLink (structure c)) +:+ LF +:+ LF +:+
  "---" +:+ LF +:+ LF +:+
  "*Last updated: " +:+ today +:+ "*" +:+ LF.

Definition generateReadme (c : config) : io unit :=
  writeFile "README.md" (readmeContent c) ;;
  tell (Generated "README.md").

Definition summaryLink (i : item) : string :=
  "* [" +:+ title i +:+ "](" +:+ file i +:+ ")".

Definition summaryContent (c : config) : string :=
  "# Table of contents" +:+ LF +:+ LF +:+
  "* [Introduction](README.md)" +:+ LF +:+ LF +:+
  join LF (map summaryLink (structure c)) +:+ LF.

Definition generateSummary (c : config) : io unit :=
  writeFile "SUMMARY.md" (summaryContent c) ;;
  tell (Generated "SUMMARY.md").

Definition sourceDirOf (i : item) : string :=
  if String.eqb (source i) "shared" then "shared" else "gitbook".

(** The body of the loop of [copySourceFiles]. *)
Definition copySourceFile (i : item) : io unit :=
  let sourceDir := sourceDirOf i in
  match sourcePath sourceDir (file i) with
  | Some e =>
      copy e (file i) ;;
      tell (Copied (file i) sourceDir)
  | None => tell (WarnNotFound sourceDir (file i))
  end.

Definition copySourceFiles (c : config) : io unit :=
  for_of (structure c) copySourceFile.

Definition copyAssets : io unit :=
  match sourcePath "gitbook" "assets" with
  | Some e => copy e "assets" ;; tell (Log "Copied assets")
  | None => ret tt
  end ;;
  match sourcePath "shared" "images" with
  | Some e => copy e "images" ;; tell (Log "Copied shared images")
  | None => ret tt
  end.

Definition buildGitBook (onDisk : option config)
  : world -> status * world :=
  try_catch (
    tell (Log "Building GitBook documentation...") ;;
    c <~ readJson onDisk ;;
    emptyDir ;;
    generateReadme c ;;
    generateSummary c ;;
    copySourceFiles c ;;
    copyAssets ;;
    tell (Log "GitBook documentation built successfully!") ;;
    tell (Log "Output directory: docs/build/gitbook")).
End Emitter.

End BuildGitbook.

(** ** scripts/mcp-build-hook.sh: is the build older than the source? *)
Module Hook.
Import Js.

(** A regular file below a root, as [find -type f -printf '%T@ %p'] prints
    it: modification time and path. *)
Record stat := Stat { mtime : Z; path : string }.

(** The regular files below a directory, recursively. *)
Definition tree := list stat.

(** [find root -name "*.md" -type f] *)
Definition find_md (t : tree) : list stat :=
  filter (fun f => endsWith (path f) ".md" = true) t.

(** The order of [sort -n] on the printed lines: by time, equal times by
    the rest of the line. *)
Definition line_leb (a b : stat) : bool :=
  (mtime a <? mtime b)%Z || ((mtime a =? mtime b)%Z && String.leb (path a) (path b)).

(** The later of two lines in that order. *)
Definition pick (best : option stat) (f : stat) : option stat :=
  match best with
  | None => Some f
  | Some b => if line_leb b f then Some f else Some b
  end.

(** [sort -n | tail -1 | cut -d' ' -f2-]: the file of the last line, and
    nothing when there is no line. *)
Definition newest (l : list stat) : option stat := fold_left pick l None.

(** Lines 25 to 42: [None] is a directory that does not exist. *)
Definition SOURCE_NEWER (source build : option tree) : bool :=
  match source, build with
  | Some s, Some b =>
      match newest (find_md s), newest (find_md b) with
      | Some NEWEST_SOURCE, Some NEWEST_BUILD =>
          (* [ "$NEWEST_SOURCE" -nt "$NEWEST_BUILD" ] *)
          (mtime NEWEST_BUILD <? mtime NEWEST_SOURCE)%Z
      | Some _, None => true
      | None, _ => false
      end
  | _, _ => false
  end.

(** Line 45: [ "$SOURCE_NEWER" = true ] || [ "$1" = "--force" ] *)
Definition stale (source build : option tree) (arg1 : string) : bool :=
  SOURCE_NEWER source build || String.eqb arg1 "--force".


Inductive decision := NotADocsProject | Rebuild | UpToDate.

(** The script: [has_build_docs] is the test for scripts/build-docs.sh. *)
Definition hook (has_build_docs : bool) (source build : option tree)
    (arg1 : string) : decision :=
  if negb has_build_docs then NotADocsProject
  else if stale source build arg1 then Rebuild else UpToDate.

End Hook.

(** ** scripts/file-watcher.js: the debounced rebuild trigger *)
Module Watcher.
Import Js.

Inductive message :=
| Skipping
| Detected (filename : string)
| ConfigDetected (filename : string)
| Rebuilding
| RebuiltOk
| ReindexHint
| BuildFailed (code : option Z)
| BuildError.

(** The module variables [isBuilding] and [buildTimeout] (the pending
    timer, by the time in milliseconds at which it is due), with what the
    process has done: the times at which it spawned a build, oldest first,
    and its console. *)
Record state := State {
  isBuilding : bool;
  buildTimeout : option Z;
  spawned : list Z;
  console : list message
}.

Definition say (m : message) (s : state) : state :=
  State (isBuilding s) (buildTimeout s) (spawned s) (console s ++ [m]).

(** [triggerBuild()] called at time [now]. *)
Definition triggerBuild (now : Z) (s : state) : state :=
  if isBuilding s then say Skipping s
  else
    (* clearTimeout(buildTimeout); buildTimeout = setTimeout(..., 2000) *)
    State (isBuilding s) (Some (now + 2000)%Z) (spawned s) (console s).

(** The timer callback, run at time [now]: it spawns the build. *)
Definition timerFires (now : Z) (s : state) : state :=
  State true None (spawned s ++ [now]) (console s ++ [Rebuilding]).

(** [buildProcess.on('close', code => ...)]; the code is null when a
    signal ended the build. *)
Definition onClose (code : option Z) (s : state) : state :=
  State false (buildTimeout s) (spawned s)
    (console s ++
       match code with
       | Some 0%Z => [RebuiltOk; ReindexHint]
       | _ => [BuildFailed code]
       end).

(** [buildProcess.on('error', ...)] *)
Definition onError (s : state) : state :=
  State false (buildTimeout s) (spawned s) (console s ++ [BuildError]).

Inductive watched := SourceTree | ConfigDir.

(** The two [fs.watch] callbacks; [filename] may be null. *)
Definition onWatch (d : watched) (filename : option string) (now : Z)
    (s : state) : state :=
  match filename with
  | None => s
  | Some f =>
      match d with
      | SourceTree =>
          if endsWith f ".md" then triggerBuild now (say (Detected f) s) else s
      | ConfigDir =>
          if endsWith f ".json" then triggerBuild now (say (ConfigDetected f) s)
          else s
      end
  end.

(** What the event loop delivers. *)
Inductive event :=
| Watch (d : watched) (filename : option string)
| Close (code : option Z)
| Error.

(** A filesystem event that reaches [triggerBuild]. *)
Definition qualifying (e : event) : bool :=
  match e with
  | Watch SourceTree (Some f) => endsWith f ".md"
  | Watch ConfigDir (Some f) => endsWith f ".json"
  | _ => false
  end.

(** Time passes up to [now]: a timer that is due has fired, at its time
    (an event delivered at the very instant the timer is due finds it
    fired). *)
Definition advance (now : Z) (s : state) : state :=
  match buildTimeout s with
  | Some due => if (due <=? now)%Z then timerFires due s else s
  | None => s
  end.

Definition handle (e : event) (now : Z) (s : state) : state :=
  match e with
  | Watch d filename => onWatch d filename now s
  | Close code => onClose code s
  | Error => onError s
  end.

(** One event delivered at time [now]. *)
Definition step (s : state) (te : Z * event) : state :=
  handle te.2 te.1 (advance te.1 s).

Definition run (s : state) (trace : list (Z * event)) : state :=
  fold_left step trace s.

(** Events that follow one another, each less than the quiet period after
    the one before; [t] is the time of the event before the first. *)
Fixpoint quiet_chain (t : Z) (ts : list Z) : bool :=
  match ts with
  | [] => true
  | t' :: ts' => (t <=? t')%Z && (t' <? t + 2000)%Z && quiet_chain t' ts'
  end.

(** While a build is in flight no timer is pending. *)
Definition no_timer_while_building (s : state) : Prop :=
  isBuilding s = true → buildTimeout s = None.

(** The process as it starts. *)
Definition initial : state := State false None [] [].

(** The states of the trigger. *)
Definition Idle (s : state) : Prop := isBuilding s = false ∧ buildTimeout s = None.
Definition Pending (s : state) : Prop := isBuilding s = false ∧ is_Some (buildTimeout s).
Definition Building (s : state) : Prop := isBuilding s = true.

(** How many events of a trace reach [triggerBuild]. *)
Definition qualifying_count (trace : list (Z * event)) : nat :=
  length (filter (λ te, qualifying te.2 = true) trace).

(** One for a pending timer, none otherwise. *)
Definition pending_count (s : state) : nat :=
  match buildTimeout s with
  | Some _ => 1
  | None => 0
  end.


End Watcher.

(** ** scripts/build-docs.sh: both emitters, one after the other

    The script runs under [set -e]: it stops at the first command that
    fails. What it echoes, and the counts of files it prints at the end, are
    left out; its effect on the two build directories and its exit status
    are modelled. *)
Module BuildDocs.
Import Js Fs Matter.

(** docs/build/gitbook, docs/build/mcp and the terminal. *)
Record site := Site {
  gitbook_dir : gmap string string;
  mcp_dir : gmap string string;
  terminal : list message
}.

Section Scripts.
Variable yaml : metadata -> string.
Variable parse_block : string -> option file.
Variable usageContent : string.
Variable SOURCE_DIR : gmap string dir.
Variable today : string.
(** config/gitbook-config.json and config/mcp-config.json as they are on
    disk. *)
Variable gitbookConfig : option BuildGitbook.config.
Variable mcpConfig : option BuildMcp.config.

(** [node scripts/build-gitbook.js] *)
Definition node_build_gitbook (s : site) : status * site :=
  let r :=
    BuildGitbook.buildGitBook SOURCE_DIR today gitbookConfig
      (World (gitbook_dir s) (terminal s)) in
  (r.1, Site (out r.2) (mcp_dir s) (console r.2)).

(** [node scripts/build-mcp.js] *)
Definition node_build_mcp (s : site) : status * site :=
  let r :=
    BuildMcp.buildMCP yaml parse_block usageContent SOURCE_DIR mcpConfig
      (World (mcp_dir s) (terminal s)) in
  (r.1, Site (gitbook_dir s) (out r.2) (console r.2)).

(** The script; [dependencies] tells whether node_modules is there, or
    [npm install] has put it there. *)
Definition build_docs (dependencies : bool) (s : site) : status * site :=
  if negb dependencies then (Exit1, s)
  else
    match node_build_gitbook s with
    | (Exit1, s1) => (Exit1, s1)
    | (Success, s1) => node_build_mcp s1
    end.

(** Lines 44 to 60 of scripts/mcp-build-hook.sh, also under [set -e]:
    [source] and [build] are what [find] sees of docs/source and
    docs/build/mcp, [has_build_mcp] is the test for scripts/build-mcp.js,
    and [npm run build] is scripts/build-docs.sh (package.json). *)
Definition mcp_build_hook (has_build_docs has_build_mcp dependencies : bool)
    (source build : option Hook.tree) (arg1 : string) (s : site)
    : status * site :=
  match Hook.hook has_build_docs source build arg1 with
  | Hook.NotADocsProject => (Success, s)
  | Hook.UpToDate => (Success, s)
  | Hook.Rebuild =>
      if has_build_mcp then node_build_mcp s else build_docs dependencies s
  end.
End Scripts.


End BuildDocs.

(** ** The repository's own configuration and sources (setup.sh) *)
Module Repo.
Import Js Fs Matter.

Definition lines (l : list string) : string := join LF l +:+ LF.

(** The shape js-yaml gives the records of config/mcp-config.json, as the
    files under docs/build/mcp show it: [key: value] lines, the items of a
    list quoted on lines of their own. *)
Definition yaml_value (v : value) : string :=
  match v with
  | VStr s => " " +:+ s
  | VBool true => " true"
  | VBool false => " false"
  | VList items =>
      String.concat "" (map (λ i, LF +:+ "  - '" +:+ i +:+ "'") items)
  end.

Definition block_yaml (m : metadata) : string :=
  match m with
  | [] => "{}"
  | _ => join LF (map (λ kv, kv.1 +:+ ":" +:+ yaml_value kv.2) m)
  end.

(** No file of the repository opens with front matter: the examples never
    reach the YAML parser. *)
Definition no_parser (str : string) : option file := None.

(** config/mcp-config.json *)
Definition mcp_config : BuildMcp.config :=
  BuildMcp.Config
    (list_to_map [
       ("shared/api-guidelines.md",
        [("description", VStr "API development guidelines and standards");
         ("alwaysApply", VBool true);
         ("globs", VList ["**/*.ts"; "**/*.js"; "**/api/**"])]);
       ("shared/deployment.md",
        [("description", VStr "Deployment procedures and configurations");
         ("globs", VList ["**/deploy/**"; "**/*.yml"; "**/*.yaml"])]);
       ("shared/architecture.md",
        [("description", VStr "System architecture and design decisions");
         ("alwaysApply", VBool true)]);
       ("mcp/code-review.md",
        [("description", VStr "Code review checklist and standards");
         ("globs", VList ["**/*.ts"; "**/*.js"; "**/*.tsx"; "**/*.jsx"])]);
       ("mcp/debug-checklist.md",
        [("description", VStr "Debugging procedures and troubleshooting steps")]);
       ("mcp/llm-instructions.md",
        [("description", VStr "Instructions for LLM behavior and responses");
         ("alwaysApply", VBool true)])
     ])
    [("description", VStr "General project documentation")].

(** config/gitbook-config.json *)
Definition gitbook_config : BuildGitbook.config :=
  BuildGitbook.Config "Project Documentation"
    [ BuildGitbook.Item "Getting Started" "getting-started.md" "gitbook";
      BuildGitbook.Item "Company Information" "company-info.md" "gitbook";
      BuildGitbook.Item "Architecture" "architecture.md" "shared";
      BuildGitbook.Item "API Guidelines" "api-guidelines.md" "shared";
      BuildGitbook.Item "Deployment Guide" "deployment.md" "shared";
      BuildGitbook.Item "Tutorials" "tutorials.md" "gitbook" ]
    (BuildGitbook.Readme "Welcome to Our Documentation"
       "This documentation covers everything you need to know about our project.").

(** The first lines of the sources; the rest of each text plays no part. *)
Definition architecture_md : string :=
  lines ["# System Architecture"; ""; "## Overview"].
Definition api_guidelines_md : string :=
  lines ["# API Guidelines"; ""; "## Overview"].
Definition deployment_md : string :=
  lines ["# Deployment Guide"; ""; "## Overview"].
Definition code_review_md : string :=
  lines ["# Code Review Checklist"; ""; "## Pre-Review Requirements"].
Definition getting_started_md : string :=
  lines ["# Getting Started Tutorial"].
Definition company_info_md : string :=
  lines ["# Company Information"; ""; "## About Us"].
Definition tutorials_md : string := lines ["# Tutorials"].

(** docs/source as setup.sh creates it. *)
Definition SOURCE_DIR : gmap string dir :=
  list_to_map [
    ("shared", [("api-guidelines.md", File api_guidelines_md);
                ("architecture.md", File architecture_md);
                ("deployment.md", File deployment_md)]);
    ("gitbook", [("assets", Folder []);
                 ("company-info.md", File company_info_md);
                 ("getting-started.md", File getting_started_md);
                 ("tutorials.md", File tutorials_md)]);
    ("mcp", [("code-review.md", File code_review_md)])
  ].

(** The first lines of the usage instructions of build-mcp.js. *)
Definition usageContent : string :=
  lines ["---";
         "description: Usage instructions for the get_relevant_docs MCP tool";
         "alwaysApply: true";
         "---";
         "";
         "# Usage Instructions"].

Abbreviation buildMCP := (BuildMcp.buildMCP block_yaml no_parser usageContent).
Abbreviation processFiles := (BuildMcp.processFiles block_yaml no_parser).

End Repo.

(** * Properties *)

(** ** Strings *)
Module JsFacts.
Import Js.

Lemma app_nil_l (b : string) : "" +:+ b = b.
Proof. reflexivity. Qed.

Lemma app_cons (x : ascii) (a b : string) :
  String x a +:+ b = String x (a +:+ b).
Proof. reflexivity. Qed.

Ltac app_step := rewrite ?app_nil_l, ?app_cons.

Lemma app_assoc' (a b c : string) : (a +:+ b) +:+ c = a +:+ b +:+ c.
Proof. induction a as [|x a IH]; app_step; [done | by rewrite IH]. Qed.

Lemma app_empty_r (a : string) : a +:+ "" = a.
Proof. induction a as [|x a IH]; app_step; [done | by rewrite IH]. Qed.

Lemma rev_app_spec (a b : string) : String.rev_app a b = String.rev a +:+ b.
Proof.
  unfold String.rev. revert b.
  induction a as [|x a IH]; intros b; simpl; [done|].
  rewrite (IH (String x "")), IH, app_assoc'. done.
Qed.

Lemma rev_append (a b : string) :
  String.rev (a +:+ b) = String.rev b +:+ String.rev a.
Proof.
  induction a as [|x a IH]; app_step.
  - by rewrite app_empty_r.
  - unfold String.rev at 1 3. simpl.
    rewrite !rev_app_spec, IH, app_assoc'. done.
Qed.

Lemma prefix_append (p s : string) : String.prefix p (p +:+ s) = true.
Proof.
  induction p as [|x p IH]; app_step; simpl; [by destruct s|].
  destruct (ascii_dec x x); [done | congruence].
Qed.

Lemma prefix_split (p s : string) :
  String.prefix p s = true → ∃ r, s = p +:+ r.
Proof.
  revert s. induction p as [|x p IH]; intros s H.
  - by exists s.
  - destruct s as [|y s]; simpl in H; [done|].
    destruct (ascii_dec x y) as [->|]; [|done].
    destruct (IH _ H) as [r ->]. by exists r.
Qed.

(** [endsWith] holds of the strings that end with the suffix. *)
Lemma endsWith_append (a p : string) : endsWith (a +:+ p) p = true.
Proof. unfold endsWith. rewrite rev_append. apply prefix_append. Qed.

Lemma rev_involutive (a : string) : String.rev (String.rev a) = a.
Proof.
  induction a as [|x a IH]; [done|].
  unfold String.rev at 2. simpl. rewrite rev_app_spec, rev_append, IH. done.
Qed.

Lemma endsWith_split (s p : string) :
  endsWith s p = true → ∃ a, s = a +:+ p.
Proof.
  unfold endsWith. intros [r Hr]%prefix_split.
  exists (String.rev r).
  rewrite <- (rev_involutive s), Hr, rev_append, rev_involutive. done.
Qed.





Lemma has_slash_append (a b : string) :
  has_slash (a +:+ b) = has_slash a || has_slash b.
Proof.
  induction a as [|x a IH]; app_step; simpl; [done|]. by rewrite IH, orb_assoc.
Qed.

Lemma has_slash_below (dest rel : string) :
  has_slash (dest +:+ "/" +:+ rel) = true.
Proof. rewrite !has_slash_append. simpl. apply orb_true_r. Qed.

End JsFacts.

(** ** The monad of the emitters *)
Module FsFacts.
Import Fs.
Local Open Scope io_scope.

Lemma blind_ret {A} (a : A) : console_blind (ret a).
Proof. by intros o l1 l2. Qed.

Lemma blind_throw {A} (cause : string) : console_blind (@throw A cause).
Proof. by intros o l1 l2. Qed.

Lemma blind_tell (m : message) : console_blind (tell m).
Proof. by intros o l1 l2. Qed.

Lemma blind_writeFile (name content : string) :
  console_blind (writeFile name content).
Proof. by intros o l1 l2. Qed.

Lemma blind_readFile (e : entry) : console_blind (readFile e).
Proof. destruct e; [apply blind_ret | apply blind_throw]. Qed.

Lemma blind_readFileIn (d : dir) (file : string) :
  console_blind (readFileIn d file).
Proof.
  unfold readFileIn. destruct (lookup_entry file d);
    [apply blind_readFile | apply blind_throw].
Qed.

Lemma blind_bind {A B} (m : io A) (k : A → io B) :
  console_blind m → (∀ a, console_blind (k a)) → console_blind (bind m k).
Proof.
  intros Hm Hk o l1 l2. unfold bind.
  destruct (Hm o l1 l2) as [Hr Ho].
  destruct (m (World o l1)) as [r1 [o1 c1]], (m (World o l2)) as [r2 [o2 c2]].
  simpl in *. subst r2 o2.
  destruct r1 as [a|e]; [apply Hk | done].
Qed.

Lemma blind_for_of {A} (l : list A) (body : A → io unit) :
  (∀ x, console_blind (body x)) → console_blind (for_of l body).
Proof.
  intros Hb. induction l as [|x l IH]; simpl.
  - apply blind_ret.
  - apply blind_bind; [apply Hb | intros _; apply IH].
Qed.

Lemma blind_copy (e : entry) (dest : string) : console_blind (copy e dest).
Proof.
  destruct e as [c|files]; simpl; [apply blind_writeFile|].
  apply blind_for_of. intros [rel c]. apply blind_writeFile.
Qed.

(** Once the build directory is emptied, nothing of the earlier world is
    left in it. *)
Lemma forgets_emptyDir {A} (m : io A) :
  console_blind m → forgets (emptyDir ;; m).
Proof. intros Hm [o1 l1] [o2 l2]. unfold bind, emptyDir. simpl. apply Hm. Qed.

Lemma forgets_tell {A} (t : message) (m : io A) :
  forgets m → forgets (tell t ;; m).
Proof. intros Hm w1 w2. unfold bind, tell. simpl. apply Hm. Qed.

Lemma forgets_try_catch (body : io unit) (w1 w2 : world) :
  forgets body →
  (try_catch body w1).1 = (try_catch body w2).1 ∧
  out (try_catch body w1).2 = out (try_catch body w2).2.
Proof.
  intros Hb. destruct (Hb w1 w2) as [Hr Ho]. unfold try_catch.
  destruct (body w1) as [r1 [o1 c1]], (body w2) as [r2 [o2 c2]].
  simpl in *. subst r2 o2. by destruct r1.
Qed.


(** [copy] does not fail, and leaves alone every path that is not the
    destination or below it. *)
Lemma copy_folder_spec (files : list (string * string)) (dest : string) (w : world) :
  ∃ o, for_of files (λ '(rel, c), writeFile (dest +:+ "/" +:+ rel) c) w
       = (inl tt, World o (console w)) ∧
       ∀ p, Js.has_slash p = false → o !! p = out w !! p.
Proof.
  revert w. induction files as [|[rel c] files IH]; intros w; simpl.
  - exists (out w). by destruct w.
  - unfold bind, writeFile at 1. simpl.
    destruct (IH (World (<[dest +:+ "/" +:+ rel := c]> (out w)) (console w)))
      as (o & -> & Ho).
    exists o. split; [done|]. intros p Hp. rewrite Ho by done. simpl.
    apply lookup_insert_ne. intros <-.
    by rewrite JsFacts.has_slash_below in Hp.
Qed.

Lemma copy_spec (e : entry) (dest : string) (w : world) :
  ∃ o, copy e dest w = (inl tt, World o (console w)) ∧
       ∀ p, Js.has_slash p = false → p ≠ dest → o !! p = out w !! p.
Proof.
  destruct e as [c|files]; simpl.
  - exists (<[dest := c]> (out w)). split; [done|].
    intros p _ Hp. by apply lookup_insert_ne.
  - destruct (copy_folder_spec files dest w) as (o & Hrun & Ho).
    exists o. split; [done|]. intros p Hp _. by apply Ho.
Qed.

End FsFacts.

(** ** The metadata-target emitter *)
Module McpFacts.
Import Js Fs Matter BuildMcp.
Local Open Scope io_scope.

Section Emitter.
Variable yaml : metadata → string.
Variable parse_block : string → option file.
Variable usageContent : string.
Variable SOURCE_DIR : gmap string dir.

Abbreviation processFile := (processFile yaml parse_block).
Abbreviation processFiles := (processFiles yaml parse_block SOURCE_DIR).
Abbreviation emitted_in := (emitted_in yaml parse_block).
Abbreviation emitted := (emitted yaml parse_block SOURCE_DIR).
Abbreviation buildMCP := (buildMCP yaml parse_block usageContent SOURCE_DIR).

Lemma blind_processFile category c d file :
  console_blind (processFile category c d file).
Proof.
  unfold BuildMcp.processFile. destruct (negb _); [apply FsFacts.blind_ret|].
  apply FsFacts.blind_bind; [apply FsFacts.blind_readFileIn|]. intros content.
  apply FsFacts.blind_bind.
  { unfold matter_stringify.
    destruct (stringify _ _ _ _); [apply FsFacts.blind_ret | apply FsFacts.blind_throw]. }
  intros text.
  apply FsFacts.blind_bind; [apply FsFacts.blind_writeFile|]. intros _.
  apply FsFacts.blind_tell.
Qed.

Lemma blind_processFiles category c : console_blind (processFiles category c).
Proof.
  unfold BuildMcp.processFiles. destruct (SOURCE_DIR !! category).
  - apply FsFacts.blind_for_of. intros x. apply blind_processFile.
  - apply FsFacts.blind_tell.
Qed.

Lemma md_processable_spec d :
  md_processable parse_block d = true →
  ∀ f, f ∈ readdir d → endsWith f ".md" = true →
       ∃ content parsed, lookup_entry f d = Some (File content)
                         ∧ matter parse_block content = Some parsed.
Proof.
  unfold md_processable. rewrite forallb_forall. intros H f Hf Hmd.
  apply list_elem_of_In, H in Hf. rewrite Hmd in Hf. simpl in Hf.
  destruct (lookup_entry f d) as [[content|]|]; [|done..].
  destruct (matter parse_block content) as [parsed|] eqn:Hp; [|done].
  by exists content, parsed.
Qed.

(** The loop over the names of a directory whose [*.md] entries are files
    that parse: it completes, reports each [*.md] name in order, and writes
    for each the file of [emitted_in]. *)
Lemma process_loop category c d (l : list string) (w : world) :
  (∀ f, f ∈ l → endsWith f ".md" = true →
        ∃ content parsed, lookup_entry f d = Some (File content)
                          ∧ matter parse_block content = Some parsed) →
  ∃ o, for_of l (processFile category c d) w
       = (inl tt, World o (console w ++
            map (Processed category) (filter (λ f, endsWith f ".md" = true) l)))
     ∧ (∀ p x, p ∈ l → emitted_in c category d p = Some x → o !! p = Some x)
     ∧ (∀ p, p ∉ l ∨ emitted_in c category d p = None → o !! p = out w !! p).
Proof.
  revert w. induction l as [|f l IH]; intros w Hfiles.
  - exists (out w). simpl. rewrite app_nil_r. destruct w. split; [done|].
    split; [intros p x Hp; by apply elem_of_nil in Hp | done].
  - assert (Hl : ∀ g, g ∈ l → endsWith g ".md" = true →
                      ∃ content parsed, lookup_entry g d = Some (File content)
                                        ∧ matter parse_block content = Some parsed).
    { intros g Hg. apply Hfiles. by right. }
    cbn [for_of]. unfold bind. rewrite filter_cons.
    destruct (endsWith f ".md") eqn:Hmd.
    + destruct (Hfiles f) as (content & parsed & Hc & Hparsed); [by left | done |].
      unfold BuildMcp.processFile at 1. rewrite Hmd. simpl.
      unfold bind, readFileIn, matter_stringify, stringify.
      rewrite Hc. simpl. rewrite Hparsed. simpl.
      set (r := stringify_file _ _ _).
      assert (He : emitted_in c category d f = Some r).
      { unfold BuildMcp.emitted_in, stringify. by rewrite Hc, Hmd, Hparsed. }
      destruct (IH (World (<[f := r]> (out w)) (console w ++ [Processed category f])) Hl)
        as (o & -> & Hin & Hout).
      exists o. simpl. rewrite ?decide_True by done.
      split; [by rewrite <- app_assoc|]. split.
      * intros p x Hp Hx. destruct (decide (p ∈ l)) as [Hpl|Hpl].
        { by apply Hin. }
        apply elem_of_cons in Hp as [->|Hp]; [|done].
        rewrite Hout by (by left). simpl. rewrite lookup_insert_eq. congruence.
      * intros p Hp. simpl in Hout. rewrite Hout.
        { apply lookup_insert_ne. intros <-. destruct Hp as [Hp|Hp].
          - apply Hp. by left.
          - congruence. }
        destruct Hp as [Hp|Hp]; [left|by right].
        intros Hpl. apply Hp. by right.
    + unfold BuildMcp.processFile at 1. rewrite Hmd. simpl.
      destruct (IH w Hl) as (o & -> & Hin & Hout).
      exists o. simpl. rewrite ?decide_False by done.
      split; [done|]. split.
      * intros p x Hp Hx. apply elem_of_cons in Hp as [->|Hp]; [|by apply Hin].
        unfold BuildMcp.emitted_in in Hx. rewrite Hmd in Hx.
        by destruct (lookup_entry f d) as [[]|].
      * intros p Hp. apply Hout. destruct Hp as [Hp|Hp]; [left|by right].
        intros Hpl. apply Hp. by right.
Qed.

Lemma lookup_entry_readdir file (d : dir) :
  is_Some (lookup_entry file d) → file ∈ readdir d.
Proof.
  unfold readdir. induction d as [|[n e] d IH]; simpl.
  - by intros [? ?].
  - destruct (String.eqb_spec n file) as [->|]; [by left|]. right. by apply IH.
Qed.

Lemma emitted_in_readdir c category d p x :
  emitted_in c category d p = Some x → p ∈ readdir d.
Proof.
  unfold BuildMcp.emitted_in. intros H. apply lookup_entry_readdir.
  by destruct (lookup_entry p d).
Qed.

(** One category, start to end. *)
Lemma processFiles_spec category c (w : world) :
  readable parse_block SOURCE_DIR category = true →
  ∃ o log, processFiles category c w = (inl tt, World o (console w ++ log))
     ∧ (∀ p x, emitted c category p = Some x → o !! p = Some x)
     ∧ (∀ p, emitted c category p = None → o !! p = out w !! p).
Proof.
  unfold readable, BuildMcp.processFiles, BuildMcp.emitted.
  destruct (SOURCE_DIR !! category) as [d|]; simpl; intros Hr.
  - destruct (process_loop category c d (readdir d) w) as (o & Hrun & Hin & Hout).
    { by apply md_processable_spec. }
    exists o. eexists. split; [done|]. split.
    + intros p x Hx. apply Hin; [|done]. by eapply emitted_in_readdir.
    + intros p Hp. apply Hout. by right.
  - exists (out w), [DirectoryNotFound category]. by destruct w.
Qed.


(** The run after the configuration is read. *)
Lemma forgets_build_mcp c :
  forgets (tell (Log "Building MCP documentation...") ;;
           c' <~ readJson (Some c) ;;
           emptyDir ;;
           processSharedFiles yaml parse_block SOURCE_DIR c' ;;
           processMCPOnlyFiles yaml parse_block SOURCE_DIR c' ;;
           generateUsageInstructions usageContent ;;
           tell (Log "MCP documentation built successfully!") ;;
           tell (Log "Output directory: docs/build/mcp")).
Proof.
  apply FsFacts.forgets_tell.
  change (forgets (emptyDir ;;
           processSharedFiles yaml parse_block SOURCE_DIR c ;;
           processMCPOnlyFiles yaml parse_block SOURCE_DIR c ;;
           generateUsageInstructions usageContent ;;
           tell (Log "MCP documentation built successfully!") ;;
           tell (Log "Output directory: docs/build/mcp"))).
  apply FsFacts.forgets_emptyDir.
  apply FsFacts.blind_bind; [apply blind_processFiles | intros _].
  apply FsFacts.blind_bind; [apply blind_processFiles | intros _].
  apply FsFacts.blind_bind; [|intros _].
  { apply FsFacts.blind_bind; [apply FsFacts.blind_writeFile|].
    intros _. apply FsFacts.blind_tell. }
  apply FsFacts.blind_bind; [apply FsFacts.blind_tell | intros _].
  apply FsFacts.blind_tell.
Qed.

(** The build directory after a run that completes. *)
Lemma buildMCP_output c (w : world) :
  readable parse_block SOURCE_DIR "shared" = true →
  readable parse_block SOURCE_DIR "mcp" = true →
  ∃ w', buildMCP (Some c) w = (Success, w') ∧
        ∀ p, out w' !! p = expected_output yaml parse_block usageContent SOURCE_DIR c p.
Proof.
  intros Hs Hm.
  unfold BuildMcp.buildMCP, try_catch, bind, processSharedFiles, processMCPOnlyFiles.
  cbn [tell readJson ret emptyDir out console].
  set (w0 := World ∅ _).
  destruct (processFiles_spec "shared" c w0 Hs) as (o1 & l1 & -> & Hin1 & Hout1).
  destruct (processFiles_spec "mcp" c (World o1 (console w0 ++ l1)) Hm)
    as (o2 & l2 & -> & Hin2 & Hout2).
  simpl. eexists. split; [done|]. intros p. simpl.
  unfold expected_output.
  destruct (String.eqb_spec p "markdown-rules.md") as [->|Hp].
  - by rewrite lookup_insert_eq.
  - rewrite lookup_insert_ne by done.
    destruct (emitted c "mcp" p) as [x|] eqn:Hx; [by apply Hin2|].
    rewrite Hout2 by done. simpl.
    destruct (emitted c "shared" p) as [y|] eqn:Hy; [by apply Hin1|].
    by rewrite Hout1.
Qed.

End Emitter.
End McpFacts.

(** ** The publishing emitter *)
Module GitbookFacts.
Import Js Fs BuildGitbook.
Local Open Scope io_scope.

Section Emitter.
Variable SOURCE_DIR : gmap string dir.
Variable today : string.

Abbreviation sourcePath := (sourcePath SOURCE_DIR).
Abbreviation copySourceFile := (copySourceFile SOURCE_DIR).
Abbreviation copySourceFiles := (copySourceFiles SOURCE_DIR).
Abbreviation copyAssets := (copyAssets SOURCE_DIR).
Abbreviation buildGitBook := (buildGitBook SOURCE_DIR today).

Lemma blind_copySourceFile i : console_blind (copySourceFile i).
Proof.
  unfold BuildGitbook.copySourceFile. simpl. destruct (sourcePath _ _).
  - apply FsFacts.blind_bind; [apply FsFacts.blind_copy|].
    intros _. apply FsFacts.blind_tell.
  - apply FsFacts.blind_tell.
Qed.

Lemma blind_copyAssets : console_blind copyAssets.
Proof.
  unfold BuildGitbook.copyAssets.
  apply FsFacts.blind_bind; [|intros _]; destruct (sourcePath _ _);
    try apply FsFacts.blind_ret;
    (apply FsFacts.blind_bind; [apply FsFacts.blind_copy|]);
    intros _; apply FsFacts.blind_tell.
Qed.

Lemma blind_generate (name text : string) :
  console_blind (writeFile name text ;; tell (Generated name)).
Proof.
  apply FsFacts.blind_bind; [apply FsFacts.blind_writeFile|].
  intros _. apply FsFacts.blind_tell.
Qed.

(** The run after the configuration is read. *)
Lemma forgets_build_gitbook c :
  forgets (tell (Log "Building GitBook documentation...") ;;
           c' <~ readJson (Some c) ;;
           emptyDir ;;
           generateReadme today c' ;;
           generateSummary c' ;;
           copySourceFiles c' ;;
           copyAssets ;;
           tell (Log "GitBook documentation built successfully!") ;;
           tell (Log "Output directory: docs/build/gitbook")).
Proof.
  apply FsFacts.forgets_tell.
  change (forgets (emptyDir ;;
           generateReadme today c ;;
           generateSummary c ;;
           copySourceFiles c ;;
           copyAssets ;;
           tell (Log "GitBook documentation built successfully!") ;;
           tell (Log "Output directory: docs/build/gitbook"))).
  apply FsFacts.forgets_emptyDir.
  apply FsFacts.blind_bind; [apply blind_generate | intros _].
  apply FsFacts.blind_bind; [apply blind_generate | intros _].
  apply FsFacts.blind_bind;
    [apply FsFacts.blind_for_of, blind_copySourceFile | intros _].
  apply FsFacts.blind_bind; [apply blind_copyAssets | intros _].
  apply FsFacts.blind_bind; [apply FsFacts.blind_tell | intros _].
  apply FsFacts.blind_tell.
Qed.

(** The loop over the manifest: it completes; every entry whose source is
    missing is reported; only entries whose source exists are reported as
    copied; a path without [/] that no copied entry names is left as it was. *)
Lemma copy_loop (l : list item) (w : world) :
  ∃ o log,
    for_of l copySourceFile w = (inl tt, World o (console w ++ log))
    ∧ (∀ i, i ∈ l → sourcePath (sourceDirOf i) (file i) = None →
            WarnNotFound (sourceDirOf i) (file i) ∈ log)
    ∧ (∀ f sd, Copied f sd ∈ log → is_Some (sourcePath sd f))
    ∧ (∀ p, has_slash p = false →
            (∀ j, j ∈ l → is_Some (sourcePath (sourceDirOf j) (file j)) → file j ≠ p) →
            o !! p = out w !! p).
Proof.
  revert w. induction l as [|i l IH]; intros w.
  - exists (out w), []. rewrite app_nil_r. destruct w. simpl.
    split; [done|]. split; [intros i Hi; by apply elem_of_nil in Hi|].
    split; [intros f sd Hf; by apply elem_of_nil in Hf | done].
  - cbn [for_of]. unfold bind.
    unfold BuildGitbook.copySourceFile at 1. cbn zeta.
    destruct (sourcePath (sourceDirOf i) (file i)) as [e|] eqn:He.
    + unfold bind. destruct (FsFacts.copy_spec e (file i) w) as (o1 & -> & Ho1).
      cbn [tell out console].
      destruct (IH (World o1 (console w ++ [Copied (file i) (sourceDirOf i)])))
        as (o & log & -> & Hwarn & Hcopied & Hkeep).
      exists o, (Copied (file i) (sourceDirOf i) :: log). cbn [console].
      split; [by rewrite <- app_assoc|]. split; [|split].
      * intros j Hj Hnone. right.
        apply elem_of_cons in Hj as [->|Hj]; [congruence | by apply Hwarn].
      * intros f sd Hf. apply elem_of_cons in Hf as [Heq|Hf]; [|by apply Hcopied].
        injection Heq as -> ->. by rewrite He.
      * intros p Hp Hfree. cbn [out] in Hkeep. rewrite Hkeep.
        { apply Ho1; [done|]. intros ->. eapply Hfree; [by left | by rewrite He | done]. }
        { done. }
        { intros j Hj. apply Hfree. by right. }
    + cbn [tell out console].
      destruct (IH (World (out w) (console w ++ [WarnNotFound (sourceDirOf i) (file i)])))
        as (o & log & -> & Hwarn & Hcopied & Hkeep).
      exists o, (WarnNotFound (sourceDirOf i) (file i) :: log). cbn [console].
      split; [by rewrite <- app_assoc|]. split; [|split].
      * intros j Hj Hnone.
        apply elem_of_cons in Hj as [->|Hj]; [by left | right; by apply Hwarn].
      * intros f sd Hf. apply elem_of_cons in Hf as [Heq|Hf]; [done | by apply Hcopied].
      * intros p Hp Hfree. cbn [out] in Hkeep. rewrite Hkeep; [done..|].
        intros j Hj. apply Hfree. by right.
Qed.

(** [copyAssets] completes, says only that it copied, and writes to
    [assets], [images] and below them only. *)
Lemma copyAssets_spec (w : world) :
  ∃ o log,
    copyAssets w = (inl tt, World o (console w ++ log))
    ∧ Forall (λ m, ∃ text, m = Log text) log
    ∧ (∀ p, has_slash p = false → p ≠ "assets" → p ≠ "images" →
            o !! p = out w !! p).
Proof.
  unfold BuildGitbook.copyAssets, bind.
  destruct (sourcePath "gitbook" "assets") as [e1|].
  - destruct (FsFacts.copy_spec e1 "assets" w) as (o1 & -> & Ho1).
    unfold tell; cbn [out console].
    destruct (sourcePath "shared" "images") as [e2|].
    + destruct (FsFacts.copy_spec e2 "images"
                  (World o1 (console w ++ [Log "Copied assets"]))) as (o2 & -> & Ho2).
      unfold tell; cbn [out console].
      exists o2, [Log "Copied assets"; Log "Copied shared images"].
      cbn [console]. split; [by rewrite <- app_assoc|]. split; [repeat constructor; eauto|].
      intros p Hp Ha Hi. rewrite Ho2 by done. by apply Ho1.
    + exists o1, [Log "Copied assets"].
      split; [done|]. split; [repeat constructor; eauto|].
      intros p Hp Ha Hi. by apply Ho1.
  - unfold ret.
    destruct (sourcePath "shared" "images") as [e2|].
    + destruct (FsFacts.copy_spec e2 "images" w) as (o2 & -> & Ho2).
      unfold tell; cbn [out console].
      exists o2, [Log "Copied shared images"].
      split; [done|]. split; [repeat constructor; eauto|].
      intros p Hp Ha Hi. by apply Ho2.
    + exists (out w), []. rewrite app_nil_r. destruct w.
      split; [done|]. split; [constructor | done].
Qed.

(** A run with a configuration: it completes; the console gains the
    warnings for the missing entries and reports as copied only entries that
    exist; of the paths without [/], other than [assets] and [images], that
    no copied entry names, the build directory holds the two synthesized
    files and nothing else. *)
Lemma buildGitBook_spec c (w : world) :
  ∃ o log,
    buildGitBook (Some c) w = (Success, World o (console w ++ log))
    ∧ (∀ i, i ∈ structure c → sourcePath (sourceDirOf i) (file i) = None →
            WarnNotFound (sourceDirOf i) (file i) ∈ log)
    ∧ (∀ f sd, Copied f sd ∈ log → is_Some (sourcePath sd f))
    ∧ (∀ p, has_slash p = false → p ≠ "assets" → p ≠ "images" →
            (∀ j, j ∈ structure c →
                  is_Some (sourcePath (sourceDirOf j) (file j)) → file j ≠ p) →
            o !! p =
              if String.eqb p "README.md" then Some (readmeContent today c)
              else if String.eqb p "SUMMARY.md" then Some (summaryContent c)
              else None).
Proof.
  unfold BuildGitbook.buildGitBook, try_catch, bind, generateReadme,
    generateSummary, BuildGitbook.copySourceFiles, bind.
  unfold tell at 1 2 3, readJson, ret, emptyDir, writeFile. cbn [out console].
  set (w0 := World _ _).
  destruct (copy_loop (structure c) w0) as (o1 & l1 & -> & Hwarn & Hcopied & Hkeep).
  destruct (copyAssets_spec (World o1 (console w0 ++ l1))) as (o2 & l2 & -> & Hlog & Ho2).
  unfold tell. cbn [out console].
  exists o2, ([Log "Building GitBook documentation..."; Generated "README.md";
               Generated "SUMMARY.md"] ++ l1 ++ l2 ++
              [Log "GitBook documentation built successfully!";
               Log "Output directory: docs/build/gitbook"]).
  split; [|split; [|split]].
  - subst w0. cbn [console]. by rewrite <- !app_assoc.
  - intros i Hi Hnone. apply elem_of_app. right. apply elem_of_app. left.
    by apply Hwarn.
  - intros f sd Hin.
    apply elem_of_app in Hin as [Hin|Hin].
    { repeat (apply elem_of_cons in Hin as [?|Hin]; [done|]).
      by apply elem_of_nil in Hin. }
    apply elem_of_app in Hin as [Hin|Hin]; [by apply Hcopied|].
    apply elem_of_app in Hin as [Hin|Hin].
    { rewrite Forall_forall in Hlog. by destruct (Hlog _ Hin). }
    repeat (apply elem_of_cons in Hin as [?|Hin]; [done|]).
    by apply elem_of_nil in Hin.
  - intros p Hp Ha Hi Hfree. rewrite Ho2 by done. cbn [out].
    rewrite Hkeep by done. subst w0. cbn [out].
    destruct (String.eqb_spec p "README.md") as [->|Hr].
    + rewrite lookup_insert_ne by done. by rewrite lookup_insert_eq.
    + destruct (String.eqb_spec p "SUMMARY.md") as [->|Hs].
      * by rewrite lookup_insert_eq.
      * by rewrite !lookup_insert_ne.
Qed.

End Emitter.
End GitbookFacts.

(** ** The staleness check *)
Module HookFacts.
Import Hook.
Local Open Scope Z_scope.




End HookFacts.

(** ** The rebuild trigger *)
Module WatcherFacts.
Import Js Watcher.
Local Open Scope Z_scope.

(** A qualifying event that reaches a trigger with no build in flight arms
    the timer for two seconds later, and starts nothing. *)
Lemma handle_qualifying (e : event) (now : Z) (s : state) :
  qualifying e = true → isBuilding s = false →
  isBuilding (handle e now s) = false
  ∧ buildTimeout (handle e now s) = Some (now + 2000)
  ∧ spawned (handle e now s) = spawned s.
Proof.
  intros Hq Hb. destruct e as [[] [f|] | |]; simpl in Hq; try done;
    simpl; rewrite Hq; unfold triggerBuild; simpl; by rewrite Hb.
Qed.

(** A qualifying event that reaches a trigger with a build in flight is
    logged and has no other effect. *)
Lemma handle_skipped (e : event) (now : Z) (s : state) :
  qualifying e = true → isBuilding s = true →
  isBuilding (handle e now s) = true
  ∧ buildTimeout (handle e now s) = buildTimeout s
  ∧ spawned (handle e now s) = spawned s
  ∧ last (console (handle e now s)) = Some Skipping.
Proof.
  intros Hq Hb. destruct e as [[] [f|] | |]; simpl in Hq; try done;
    simpl; rewrite Hq; unfold triggerBuild; simpl; rewrite Hb; simpl;
    by rewrite last_snoc.
Qed.

Lemma advance_not_due (now due : Z) (s : state) :
  buildTimeout s = Some due → now < due → advance now s = s.
Proof.
  intros Ht Hlt. unfold advance. rewrite Ht.
  destruct (Z.leb_spec due now); [lia | done].
Qed.

Lemma advance_due (now due : Z) (s : state) :
  buildTimeout s = Some due → due ≤ now → advance now s = timerFires due s.
Proof.
  intros Ht Hle. unfold advance. rewrite Ht.
  destruct (Z.leb_spec due now); [done | lia].
Qed.

Lemma advance_no_timer (now : Z) (s : state) :
  buildTimeout s = None → advance now s = s.
Proof. intros Ht. unfold advance. by rewrite Ht. Qed.

Lemma last_cons_default {A} (l : list A) (a d : A) :
  List.last (a :: l) d = List.last l a.
Proof.
  revert a d. induction l as [|b l IH]; intros a d; [done|].
  change (List.last (a :: b :: l) d) with (List.last (b :: l) d).
  by rewrite (IH b d), (IH b a).
Qed.

(** Within a burst every event finds the timer pending and restarts it. *)
Lemma run_burst (rest : list (Z * event)) (s : state) (t : Z) :
  isBuilding s = false →
  buildTimeout s = Some (t + 2000) →
  Forall (λ te, qualifying te.2 = true) rest →
  quiet_chain t rest.*1 = true →
  isBuilding (run s rest) = false
  ∧ buildTimeout (run s rest) = Some (List.last rest.*1 t + 2000)
  ∧ spawned (run s rest) = spawned s.
Proof.
  revert s t. induction rest as [|[t' e'] rest IH]; intros s t Hb Ht Hq Hc.
  - done.
  - apply Forall_cons in Hq as [Hq' Hq].
    cbn [fmap list_fmap fst] in Hc. cbn [quiet_chain] in Hc.
    apply andb_true_iff in Hc as [Hc1 Hc]. apply andb_true_iff in Hc1 as [Hle Hlt].
    apply Z.leb_le in Hle. apply Z.ltb_lt in Hlt.
    assert (Hstep : step s (t', e') = handle e' t' s).
    { unfold step. cbn [fst snd]. by rewrite (advance_not_due t' (t + 2000)). }
    destruct (handle_qualifying e' t' s Hq' Hb) as (Hb' & Ht' & Hs').
    destruct (IH (handle e' t' s) t' Hb' Ht' Hq Hc) as (Hb2 & Ht2 & Hs2).
    change (run s ((t', e') :: rest)) with (run (step s (t', e')) rest).
    rewrite Hstep, Hb2, Ht2, Hs2, Hs'. split; [done|]. split; [|done].
    cbn [fmap list_fmap fst]. by rewrite last_cons_default.
Qed.

Lemma step_invariant (s : state) (te : Z * event) :
  no_timer_while_building s → no_timer_while_building (step s te).
Proof.
  unfold no_timer_while_building. intros Hs. destruct te as [now e].
  unfold step. cbn [fst snd].
  assert (Ha : isBuilding (advance now s) = true → buildTimeout (advance now s) = None).
  { unfold advance. destruct (buildTimeout s) as [due|] eqn:Ht; [|done].
    destruct (due <=? now); [done|]. by rewrite Ht. }
  revert Ha. generalize (advance now s). intros a Ha.
  destruct e as [d [f|] | code |]; simpl; try done.
  destruct d; destruct (endsWith f _); try done;
    unfold triggerBuild; simpl; destruct (isBuilding a) eqn:Hb; simpl; auto; done.
Qed.

Lemma run_invariant (trace : list (Z * event)) (s : state) :
  no_timer_while_building s → no_timer_while_building (run s trace).
Proof.
  revert s. induction trace as [|te trace IH]; intros s Hs; [done|].
  apply IH, step_invariant, Hs.
Qed.

End WatcherFacts.

(** ** Front matter *)
Module MatterFacts.
Import Js Matter.








End MatterFacts.

(** ** Examples from the repository *)
Module RepoExamples.
Import Js Fs Matter Repo.

(** docs/build/mcp/architecture.md as the repository holds it: the header
    and, on the next line, the source. *)
Example architecture_built :
  out (processFiles SOURCE_DIR "shared" mcp_config fresh).2 !! "architecture.md"
  = Some (lines ["---";
                 "description: System architecture and design decisions";
                 "alwaysApply: true";
                 "---";
                 "# System Architecture"; ""; "## Overview"]).
Proof. vm_compute. reflexivity. Qed.

(** docs/build/mcp/code-review.md *)
Example code_review_built :
  out (processFiles SOURCE_DIR "mcp" mcp_config fresh).2 !! "code-review.md"
  = Some (lines ["---";
                 "description: Code review checklist and standards";
                 "globs:";
                 "  - '**/*.ts'";
                 "  - '**/*.js'";
                 "  - '**/*.tsx'";
                 "  - '**/*.jsx'";
                 "---";
                 "# Code Review Checklist"; ""; "## Pre-Review Requirements"]).
Proof. vm_compute. reflexivity. Qed.

End RepoExamples.

(** * The claims *)

Import Js Fs Matter.
Local Open Scope io_scope.

(** ** C3: the layout of a file of the metadata target *)




(** ** C6: which record a file receives *)



(** ** C10: a name that both directories hold *)

(** C10, as stated, fails for the name markdown-rules.md: the file of [mcp]
    is written over the file of [shared], and the usage instructions are
    written over both. *)
Lemma usage_instructions_overwrite_both :
  let src : gmap string dir :=
    {[ "shared" := [("markdown-rules.md", File "shared text")];
       "mcp" := [("markdown-rules.md", File "mcp text")] ]} in
  out (Repo.buildMCP src (Some Repo.mcp_config) fresh).2 !! "markdown-rules.md"
    = Some Repo.usageContent
  ∧ Some Repo.usageContent
    ≠ stringify Repo.block_yaml Repo.no_parser "mcp text"
        (BuildMcp.resolve Repo.mcp_config "mcp/markdown-rules.md").
Proof. split; [vm_compute; reflexivity | vm_compute; discriminate]. Qed.

(** C10 (amended): for a name other than markdown-rules.md that is a regular
    [*.md] file in both [shared] and [mcp], in a run that completes, the file
    of [shared] is written first, the file of [mcp] is written to the same
    path after it, and the build directory ends with the file of [mcp] under
    its own resolved record. *)
Theorem mcp_variant_wins
    (yaml : metadata → string) (parse_block : string → option file)
    (usageContent : string) (SOURCE_DIR : gmap string dir)
    (c : BuildMcp.config) (dShared dMcp : dir)
    (name sharedText mcpText sharedVariant mcpVariant : string) (w : world) :
  SOURCE_DIR !! "shared" = Some dShared →
  SOURCE_DIR !! "mcp" = Some dMcp →
  BuildMcp.md_processable parse_block dShared = true →
  BuildMcp.md_processable parse_block dMcp = true →
  lookup_entry name dShared = Some (File sharedText) →
  lookup_entry name dMcp = Some (File mcpText) →
  endsWith name ".md" = true →
  name ≠ "markdown-rules.md" →
  stringify yaml parse_block sharedText (BuildMcp.resolve c ("shared/" +:+ name))
    = Some sharedVariant →
  stringify yaml parse_block mcpText (BuildMcp.resolve c ("mcp/" +:+ name))
    = Some mcpVariant →
  (∃ w1 w2,
      BuildMcp.processSharedFiles yaml parse_block SOURCE_DIR c w = (inl tt, w1)
      ∧ out w1 !! name = Some sharedVariant
      ∧ BuildMcp.processMCPOnlyFiles yaml parse_block SOURCE_DIR c w1 = (inl tt, w2)
      ∧ out w2 !! name = Some mcpVariant)
  ∧ ∃ w', BuildMcp.buildMCP yaml parse_block usageContent SOURCE_DIR (Some c) w
          = (Success, w')
        ∧ out w' !! name = Some mcpVariant.
Proof.
  intros Hs Hm Hfs Hfm Hns Hnm Hmd Hname Hvs Hvm.
  assert (Hrs : BuildMcp.readable parse_block SOURCE_DIR "shared" = true).
  { unfold BuildMcp.readable. by rewrite Hs. }
  assert (Hrm : BuildMcp.readable parse_block SOURCE_DIR "mcp" = true).
  { unfold BuildMcp.readable. by rewrite Hm. }
  assert (Hes : BuildMcp.emitted yaml parse_block SOURCE_DIR c "shared" name
                = Some sharedVariant).
  { unfold BuildMcp.emitted, BuildMcp.emitted_in. rewrite Hs. simpl.
    by rewrite Hns, Hmd. }
  assert (Hem : BuildMcp.emitted yaml parse_block SOURCE_DIR c "mcp" name
                = Some mcpVariant).
  { unfold BuildMcp.emitted, BuildMcp.emitted_in. rewrite Hm. simpl.
    by rewrite Hnm, Hmd. }
  split.
  - unfold BuildMcp.processSharedFiles, BuildMcp.processMCPOnlyFiles.
    destruct (McpFacts.processFiles_spec yaml parse_block SOURCE_DIR "shared" c w Hrs)
      as (o1 & l1 & Hrun1 & Hin1 & _).
    destruct (McpFacts.processFiles_spec yaml parse_block SOURCE_DIR "mcp" c
                (World o1 (console w ++ l1)) Hrm)
      as (o2 & l2 & Hrun2 & Hin2 & _).
    do 2 eexists. split; [exact Hrun1|]. split; [by apply Hin1|].
    split; [exact Hrun2|]. by apply Hin2.
  - destruct (McpFacts.buildMCP_output yaml parse_block usageContent SOURCE_DIR c w
                Hrs Hrm) as (w' & Hrun & Hout).
    exists w'. split; [exact Hrun|]. rewrite Hout.
    unfold BuildMcp.expected_output.
    destruct (String.eqb_spec name "markdown-rules.md"); [done|].
    by rewrite Hem.
Qed.

Lemma mcp_variant_wins_witness :
  let src : gmap string dir :=
    {[ "shared" := [("notes.md", File "shared text")];
       "mcp" := [("notes.md", File "mcp text")] ]} in
  ∃ w', Repo.buildMCP src (Some Repo.mcp_config) fresh = (Success, w')
      ∧ out w' !! "notes.md"
        = Some (Repo.lines ["---"; "description: General project documentation";
                            "---"; "mcp text"]).
Proof.
  intros src.
  destruct (mcp_variant_wins Repo.block_yaml Repo.no_parser Repo.usageContent src
              Repo.mcp_config
              [("notes.md", File "shared text")] [("notes.md", File "mcp text")]
              "notes.md" "shared text" "mcp text"
              (Repo.lines ["---"; "description: General project documentation";
                           "---"; "shared text"])
              (Repo.lines ["---"; "description: General project documentation";
                           "---"; "mcp text"])
              fresh)
    as (_ & w' & Hrun & Hout);
    [vm_compute; reflexivity .. | vm_compute; discriminate
    | vm_compute; reflexivity | vm_compute; reflexivity |].
  exists w'. split; [exact Hrun|]. exact Hout.
Defined.

(** ** C8: a manifest entry whose source is missing *)



(** ** C1: what the output trees depend on *)

(** C1, as stated, fails: the README carries the date of the run, so a
    second run on unchanged sources and configuration, on the next day,
    leaves a different tree. *)
Lemma readme_changes_with_the_date :
  let first :=
    BuildGitbook.buildGitBook Repo.SOURCE_DIR "2025-08-03"
      (Some Repo.gitbook_config) fresh in
  let second :=
    BuildGitbook.buildGitBook Repo.SOURCE_DIR "2025-08-04"
      (Some Repo.gitbook_config) first.2 in
  out first.2 ≠ out second.2.
Proof.
  intros first second H.
  apply (f_equal (λ o : gmap string string, o !! "README.md")) in H.
  vm_compute in H. discriminate H.
Qed.

(** C1 (amended): with a configuration, the outcome and the output tree of
    the publishing emitter are the same from any two earlier worlds when the
    date of the run is the same, and those of the metadata-target emitter are
    the same from any two earlier worlds; so a second run on the same date
    leaves the tree of the first. *)
Theorem output_determined_by_inputs_and_date
    (yaml : metadata → string) (parse_block : string → option file)
    (usageContent : string) (SOURCE_DIR : gmap string dir) (today : string)
    (cg : BuildGitbook.config) (cm : BuildMcp.config) (w1 w2 : world) :
  let gitbook := BuildGitbook.buildGitBook SOURCE_DIR today (Some cg) in
  let mcp := BuildMcp.buildMCP yaml parse_block usageContent SOURCE_DIR (Some cm) in
  ((gitbook w1).1 = (gitbook w2).1 ∧ out (gitbook w1).2 = out (gitbook w2).2)
  ∧ ((mcp w1).1 = (mcp w2).1 ∧ out (mcp w1).2 = out (mcp w2).2)
  ∧ out (gitbook (gitbook w1).2).2 = out (gitbook w1).2
  ∧ out (mcp (mcp w1).2).2 = out (mcp w1).2.
Proof.
  intros gitbook mcp.
  assert (Hg : ∀ a b, (gitbook a).1 = (gitbook b).1
                      ∧ out (gitbook a).2 = out (gitbook b).2).
  { intros a b. apply FsFacts.forgets_try_catch, GitbookFacts.forgets_build_gitbook. }
  assert (Hm : ∀ a b, (mcp a).1 = (mcp b).1 ∧ out (mcp a).2 = out (mcp b).2).
  { intros a b. apply FsFacts.forgets_try_catch, McpFacts.forgets_build_mcp. }
  split; [apply Hg|]. split; [apply Hm|]. split; [apply Hg | apply Hm].
Qed.

(** The tree of a completed run of the metadata-target emitter depends on
    which files the directories hold, not on the order in which they are
    enumerated. *)
Lemma mcp_output_independent_of_enumeration_order
    (yaml : metadata → string) (parse_block : string → option file)
    (usageContent : string) (src src' : gmap string dir)
    (c : BuildMcp.config) (w w' : world) :
  (∀ category name,
     src !! category ≫= lookup_entry name = src' !! category ≫= lookup_entry name) →
  BuildMcp.readable parse_block src "shared" = true →
  BuildMcp.readable parse_block src "mcp" = true →
  BuildMcp.readable parse_block src' "shared" = true →
  BuildMcp.readable parse_block src' "mcp" = true →
  out (BuildMcp.buildMCP yaml parse_block usageContent src (Some c) w).2
  = out (BuildMcp.buildMCP yaml parse_block usageContent src' (Some c) w').2.
Proof.
  intros Hsame Hs Hm Hs' Hm'.
  destruct (McpFacts.buildMCP_output yaml parse_block usageContent src c w Hs Hm)
    as (v & -> & Hv).
  destruct (McpFacts.buildMCP_output yaml parse_block usageContent src' c w' Hs' Hm')
    as (v' & -> & Hv').
  apply map_eq. intros p. rewrite Hv, Hv'. simpl.
  assert (He : ∀ category,
            BuildMcp.emitted yaml parse_block src c category p
            = BuildMcp.emitted yaml parse_block src' c category p).
  { intros category. pose proof (Hsame category p) as H.
    unfold BuildMcp.emitted, BuildMcp.emitted_in.
    destruct (src !! category) as [d|], (src' !! category) as [d'|];
      simpl in *; rewrite ?H, <- ?H; done. }
  unfold BuildMcp.expected_output. by rewrite !He.
Qed.

(** The README of a run on 2025-08-03 is docs/build/gitbook/README.md as the
    repository holds it. *)
Example readme_built :
  out (BuildGitbook.buildGitBook Repo.SOURCE_DIR "2025-08-03"
         (Some Repo.gitbook_config) fresh).2 !! "README.md"
  = Some (Repo.lines [
      "# Project Documentation"; "";
      "This documentation covers everything you need to know about our project.";
      ""; "## Table of Contents"; "";
      "- [Getting Started](getting-started.md)";
      "- [Company Information](company-info.md)";
      "- [Architecture](architecture.md)";
      "- [API Guidelines](api-guidelines.md)";
      "- [Deployment Guide](deployment.md)";
      "- [Tutorials](tutorials.md)";
      ""; "---"; ""; "*Last updated: 2025-08-03*"]).
Proof. vm_compute. reflexivity. Qed.

(** ** C9: nothing of an earlier build is left *)

(** C9: with a configuration, a run of either emitter is the rest of the run
    started on the emptied build directory, and a path that a run on an empty
    build directory does not produce is absent after the run, whatever the
    build directory held before. *)
Theorem leftovers_are_cleared
    (yaml : metadata → string) (parse_block : string → option file)
    (usageContent : string) (SOURCE_DIR : gmap string dir) (today : string)
    (cg : BuildGitbook.config) (cm : BuildMcp.config) (w : world) (p : string) :
  let gitbook := BuildGitbook.buildGitBook SOURCE_DIR today (Some cg) in
  let mcp := BuildMcp.buildMCP yaml parse_block usageContent SOURCE_DIR (Some cm) in
  gitbook w =
    try_catch
      (BuildGitbook.generateReadme today cg ;;
       BuildGitbook.generateSummary cg ;;
       BuildGitbook.copySourceFiles SOURCE_DIR cg ;;
       BuildGitbook.copyAssets SOURCE_DIR ;;
       tell (Log "GitBook documentation built successfully!") ;;
       tell (Log "Output directory: docs/build/gitbook"))
      (World ∅ (console w ++ [Log "Building GitBook documentation..."]))
  ∧ mcp w =
    try_catch
      (BuildMcp.processSharedFiles yaml parse_block SOURCE_DIR cm ;;
       BuildMcp.processMCPOnlyFiles yaml parse_block SOURCE_DIR cm ;;
       BuildMcp.generateUsageInstructions usageContent ;;
       tell (Log "MCP documentation built successfully!") ;;
       tell (Log "Output directory: docs/build/mcp"))
      (World ∅ (console w ++ [Log "Building MCP documentation..."]))
  ∧ (out (gitbook fresh).2 !! p = None → out (gitbook w).2 !! p = None)
  ∧ (out (mcp fresh).2 !! p = None → out (mcp w).2 !! p = None).
Proof.
  intros gitbook mcp. split; [reflexivity|]. split; [reflexivity|]. split.
  - intros H. rewrite <- H. f_equal.
    apply FsFacts.forgets_try_catch, GitbookFacts.forgets_build_gitbook.
  - intros H. rewrite <- H. f_equal.
    apply FsFacts.forgets_try_catch, McpFacts.forgets_build_mcp.
Qed.

(** The scenario of the specification: old.md, left by an earlier manifest,
    is absent after either rebuild. *)
Lemma leftovers_are_cleared_witness :
  let before := World {[ "old.md" := "left over" ]} [] in
  out (BuildGitbook.buildGitBook Repo.SOURCE_DIR "2025-08-03"
         (Some Repo.gitbook_config) before).2 !! "old.md" = None
  ∧ out (Repo.buildMCP Repo.SOURCE_DIR (Some Repo.mcp_config) before).2
      !! "old.md" = None.
Proof.
  intros before.
  destruct (leftovers_are_cleared Repo.block_yaml Repo.no_parser Repo.usageContent
              Repo.SOURCE_DIR "2025-08-03" Repo.gitbook_config Repo.mcp_config
              before "old.md") as (_ & _ & Hg & Hm).
  split; [apply Hg | apply Hm]; vm_compute; reflexivity.
Defined.

(** Without a configuration nothing is cleared: the run ends before it
    reaches the build directory. *)
Example no_configuration_no_clearing :
  let before := World {[ "old.md" := "left over" ]} [] in
  Repo.buildMCP Repo.SOURCE_DIR None before
  = (Exit1, World {[ "old.md" := "left over" ]}
              [Log "Building MCP documentation...";
               ErrorBuilding "ENOENT: no such file or directory, open"]).
Proof. reflexivity. Qed.

(** ** C4: where the categories are read from *)




(** ** C5: when the build is stale *)


(** The check on small trees: a source touched after the build, a build
    touched after the source, and a build directory that holds no markdown
    file. *)
Example stale_examples :
  let src t := [Hook.Stat t "docs/source/shared/architecture.md";
                Hook.Stat 5 "docs/source/mcp/code-review.md";
                Hook.Stat 99 "docs/source/gitbook/assets/logo.png"] in
  let built t := [Hook.Stat t "docs/build/mcp/architecture.md";
                  Hook.Stat 7 "docs/build/mcp/markdown-rules.md"] in
  Hook.SOURCE_NEWER (Some (src 8%Z)) (Some (built 7%Z)) = true
  ∧ Hook.SOURCE_NEWER (Some (src 7%Z)) (Some (built 7%Z)) = false
  ∧ Hook.SOURCE_NEWER (Some (src 3%Z)) (Some (built 50%Z)) = false
  ∧ Hook.SOURCE_NEWER (Some (src 3%Z)) (Some []) = true
  ∧ Hook.SOURCE_NEWER (Some []) (Some []) = false
  ∧ Hook.hook true (Some (src 3%Z)) (Some (built 50%Z)) "--force" = Hook.Rebuild
  ∧ Hook.hook true (Some (src 3%Z)) (Some (built 50%Z)) "" = Hook.UpToDate.
Proof. vm_compute. repeat split. Qed.

(** Where the build directory itself does not exist the comparison is not
    made, and only [--force] rebuilds. *)
Example no_build_directory :
  let src := [Hook.Stat 3 "docs/source/shared/architecture.md"] in
  Hook.SOURCE_NEWER (Some src) None = false
  ∧ Hook.hook true (Some src) None "" = Hook.UpToDate
  ∧ Hook.hook true (Some src) None "--force" = Hook.Rebuild.
Proof. vm_compute. repeat split. Qed.

(** ** C7: a burst of events starts one build *)

(** C7: from an idle trigger, a burst of one or more qualifying events, each
    less than two seconds after the one before, starts no build until two
    seconds after the last event, and exactly one, at that time, once they
    have passed; after that build has closed, one further qualifying event
    starts exactly one more build, two seconds after it. *)
Theorem burst_starts_one_build
    (s : Watcher.state) (t1 : Z) (e1 : Watcher.event)
    (rest : list (Z * Watcher.event)) :
  Watcher.Idle s →
  Watcher.qualifying e1 = true →
  Forall (λ te, Watcher.qualifying te.2 = true) rest →
  Watcher.quiet_chain t1 rest.*1 = true →
  let tN := List.last rest.*1 t1 in
  let s1 := Watcher.run s ((t1, e1) :: rest) in
  (∀ T, (T < tN + 2000)%Z →
        Watcher.spawned (Watcher.advance T s1) = Watcher.spawned s)
  ∧ (∀ T, (tN + 2000 ≤ T)%Z →
          Watcher.spawned (Watcher.advance T s1) = Watcher.spawned s ++ [(tN + 2000)%Z]
          ∧ Watcher.Building (Watcher.advance T s1))
  ∧ (∀ tc code t' e' T',
       (tN + 2000 ≤ tc)%Z → (tc ≤ t')%Z →
       Watcher.qualifying e' = true →
       (t' + 2000 ≤ T')%Z →
       let s2 := Watcher.run s1 [(tc, Watcher.Close code); (t', e')] in
       Watcher.spawned (Watcher.advance T' s2)
       = Watcher.spawned s ++ [(tN + 2000)%Z; (t' + 2000)%Z]).
Proof.
  intros [Hb Ht] Hq1 Hq Hc tN s1.
  assert (Hfirst : Watcher.step s (t1, e1) = Watcher.handle e1 t1 s).
  { unfold Watcher.step. cbn [fst snd]. by rewrite WatcherFacts.advance_no_timer. }
  destruct (WatcherFacts.handle_qualifying e1 t1 s Hq1 Hb) as (Hb1 & Ht1 & Hs1).
  destruct (WatcherFacts.run_burst rest (Watcher.handle e1 t1 s) t1 Hb1 Ht1 Hq Hc)
    as (Hb2 & Ht2 & Hs2).
  assert (Es1 : s1 = Watcher.run (Watcher.handle e1 t1 s) rest).
  { subst s1. change (Watcher.run s ((t1, e1) :: rest))
      with (Watcher.run (Watcher.step s (t1, e1)) rest). by rewrite Hfirst. }
  rewrite <- Es1 in Hb2, Ht2, Hs2. fold tN in Ht2. rewrite Hs1 in Hs2.
  split; [|split].
  - intros T HT. by rewrite (WatcherFacts.advance_not_due T (tN + 2000)).
  - intros T HT. rewrite (WatcherFacts.advance_due T (tN + 2000)) by done.
    unfold Watcher.timerFires, Watcher.Building. simpl. by rewrite Hs2.
  - intros tc code t' e' T' Htc Ht' Hq' HT' s2. subst s2.
    cbn [Watcher.run fold_left]. unfold Watcher.step at 2. cbn [fst snd].
    rewrite (WatcherFacts.advance_due tc (tN + 2000)) by done.
    cbn [Watcher.handle]. unfold Watcher.onClose, Watcher.timerFires.
    cbn [Watcher.buildTimeout Watcher.spawned Watcher.console].
    set (idle := Watcher.State false None _ _).
    unfold Watcher.step. cbn [fst snd].
    rewrite (WatcherFacts.advance_no_timer t' idle) by done.
    destruct (WatcherFacts.handle_qualifying e' t' idle Hq' eq_refl)
      as (Hb3 & Ht3 & Hs3).
    rewrite (WatcherFacts.advance_due T' (t' + 2000)) by done.
    unfold Watcher.timerFires. cbn [Watcher.spawned]. rewrite Hs3.
    subst idle. cbn [Watcher.spawned]. rewrite Hs2. by rewrite <- app_assoc.
Qed.

(** Three saves within a second, and a fourth one a minute later. *)
Lemma burst_starts_one_build_witness :
  let md := Watcher.Watch Watcher.SourceTree (Some "shared/architecture.md") in
  let json := Watcher.Watch Watcher.ConfigDir (Some "mcp-config.json") in
  let s1 := Watcher.run Watcher.initial [(0, md); (400, json); (900, md)]%Z in
  Watcher.spawned (Watcher.advance 2899 s1) = []
  ∧ Watcher.spawned (Watcher.advance 2900 s1) = [2900%Z]
  ∧ Watcher.spawned
      (Watcher.advance 62000
         (Watcher.run s1 [(4000%Z, Watcher.Close (Some 0%Z)); (60000%Z, md)]))
    = [2900; 62000]%Z.
Proof.
  intros md json s1.
  destruct (burst_starts_one_build Watcher.initial 0 md [(400, json); (900, md)]%Z)
    as (Hquiet & Hfire & Hnext);
    [by split | vm_compute; reflexivity | repeat constructor
    | vm_compute; reflexivity |].
  split; [apply (Hquiet 2899%Z); vm_compute; reflexivity|].
  split; [apply (Hfire 2900%Z); vm_compute; discriminate|].
  apply (Hnext 4000%Z (Some 0%Z) 60000%Z md 62000%Z);
    try (vm_compute; discriminate); vm_compute; reflexivity.
Defined.

(** ** C2: an event that arrives while a build is running *)

(** C2, as stated, fails: after a change during the build and the close of
    the build, the trigger is idle, no timer is pending, and an hour later
    still only the first build has been started. *)
Lemma event_during_build_is_dropped :
  let md f := Watcher.Watch Watcher.SourceTree (Some f) in
  let s :=
    Watcher.run Watcher.initial
      [(0%Z, md "a.md"); (2500%Z, md "b.md"); (3000%Z, Watcher.Close (Some 0%Z))] in
  Watcher.isBuilding s = false
  ∧ Watcher.buildTimeout s = None
  ∧ ¬ Watcher.Pending s
  ∧ Watcher.spawned (Watcher.advance 3603000 s) = [2000%Z]
  ∧ Watcher.console s
    = [Watcher.Detected "a.md"; Watcher.Rebuilding; Watcher.Detected "b.md";
       Watcher.Skipping; Watcher.RebuiltOk; Watcher.ReindexHint].
Proof.
  intros md s. split; [reflexivity|]. split; [reflexivity|].
  split; [|split; reflexivity].
  intros [_ [due Hdue]]. vm_compute in Hdue. discriminate Hdue.
Qed.

(** C2 (amended): a qualifying event that arrives while a build is running
    is logged as skipped and changes nothing else: the build stays in flight,
    no timer is armed and nothing is started; when the build then closes the
    trigger is idle, and however long one waits no build is started until
    another qualifying event arrives. *)
Theorem event_during_build_only_logged
    (s : Watcher.state) (now : Z) (e : Watcher.event) (tc : Z)
    (code : option Z) (T : Z) :
  Watcher.Building s →
  Watcher.buildTimeout s = None →
  Watcher.qualifying e = true →
  let s1 := Watcher.step s (now, e) in
  let s2 := Watcher.step s1 (tc, Watcher.Close code) in
  (Watcher.Building s1
   ∧ Watcher.buildTimeout s1 = None
   ∧ Watcher.spawned s1 = Watcher.spawned s
   ∧ last (Watcher.console s1) = Some Watcher.Skipping)
  ∧ Watcher.Idle s2
  ∧ Watcher.advance T s2 = s2
  ∧ Watcher.spawned s2 = Watcher.spawned s.
Proof.
  intros Hb Ht Hq s1 s2. unfold Watcher.Building in *.
  assert (E1 : s1 = Watcher.handle e now s).
  { subst s1. unfold Watcher.step. cbn [fst snd].
    by rewrite WatcherFacts.advance_no_timer. }
  destruct (WatcherFacts.handle_skipped e now s Hq Hb) as (Hb1 & Ht1 & Hs1 & Hl1).
  rewrite <- E1 in Hb1, Ht1, Hs1, Hl1. rewrite Ht in Ht1.
  assert (E2 : s2 = Watcher.onClose code s1).
  { subst s2. unfold Watcher.step. cbn [fst snd Watcher.handle].
    by rewrite WatcherFacts.advance_no_timer. }
  split; [done|].
  assert (Hidle : Watcher.Idle s2).
  { rewrite E2. split; [done | exact Ht1]. }
  split; [exact Hidle|]. split.
  - apply WatcherFacts.advance_no_timer, Hidle.
  - rewrite E2. exact Hs1.
Qed.

(** The state in which the hypotheses hold is reached: a change, the timer,
    then a change during the build. *)
Lemma event_during_build_only_logged_witness :
  let md f := Watcher.Watch Watcher.SourceTree (Some f) in
  let building := Watcher.advance 2000 (Watcher.run Watcher.initial [(0%Z, md "a.md")]) in
  let s2 := Watcher.step (Watcher.step building (2500%Z, md "b.md"))
              (3000%Z, Watcher.Close (Some 0%Z)) in
  Watcher.Building building
  ∧ Watcher.Idle s2
  ∧ Watcher.advance 3603000 s2 = s2
  ∧ Watcher.spawned s2 = [2000%Z].
Proof.
  intros md building s2.
  destruct (event_during_build_only_logged building 2500 (md "b.md") 3000
              (Some 0%Z) 3603000)
    as (_ & Hidle & Hwait & Hspawned); [reflexivity ..|].
  split; [reflexivity|]. split; [exact Hidle|]. split; [exact Hwait|].
  exact Hspawned.
Defined.

(** Every state the process reaches has no timer pending while a build is
    in flight. *)
Lemma reachable_no_timer_while_building (trace : list (Z * Watcher.event)) :
  Watcher.no_timer_while_building (Watcher.run Watcher.initial trace).
Proof. apply WatcherFacts.run_invariant. by intros ?. Qed.

(** * Further properties of the scripts *)

(** ** scripts/file-watcher.js *)

Lemma handle_keeps_spawned (e : Watcher.event) (now : Z) (s : Watcher.state) :
  Watcher.spawned (Watcher.handle e now s) = Watcher.spawned s.
Proof.
  destruct e as [d [f|] | code |]; simpl; try done.
  destruct d; destruct (endsWith f _); try done;
    unfold Watcher.triggerBuild, Watcher.say; simpl;
    by destruct (Watcher.isBuilding s).
Qed.




(** Firing the timer moves one unit from the pending timer to the builds. *)
Lemma advance_balance (now : Z) (s : Watcher.state) :
  length (Watcher.spawned (Watcher.advance now s))
    + Watcher.pending_count (Watcher.advance now s)
  = length (Watcher.spawned s) + Watcher.pending_count s.
Proof.
  unfold Watcher.advance, Watcher.pending_count.
  destruct (Watcher.buildTimeout s) as [due|] eqn:E; [|by rewrite E].
  destruct (due <=? now)%Z; simpl; [|by rewrite E].
  rewrite length_app. simpl. lia.
Qed.

Lemma handle_pending (e : Watcher.event) (now : Z) (s : Watcher.state) :
  Watcher.pending_count (Watcher.handle e now s)
  ≤ Watcher.pending_count s + (if Watcher.qualifying e then 1 else 0).
Proof.
  unfold Watcher.pending_count.
  destruct e as [w [f|] | code |]; simpl; try lia.
  destruct w; destruct (endsWith f _); simpl; try lia;
    unfold Watcher.triggerBuild, Watcher.say; simpl;
    destruct (Watcher.isBuilding s); simpl;
    destruct (Watcher.buildTimeout s); lia.
Qed.

Lemma qualifying_count_cons (te : Z * Watcher.event) (trace : list (Z * Watcher.event)) :
  Watcher.qualifying_count (te :: trace)
  = (if Watcher.qualifying te.2 then 1 else 0) + Watcher.qualifying_count trace.
Proof.
  unfold Watcher.qualifying_count. rewrite filter_cons.
  destruct (Watcher.qualifying te.2); simpl; by rewrite ?decide_True, ?decide_False.
Qed.

Lemma run_balance (trace : list (Z * Watcher.event)) (s : Watcher.state) :
  length (Watcher.spawned (Watcher.run s trace))
    + Watcher.pending_count (Watcher.run s trace)
  ≤ length (Watcher.spawned s) + Watcher.pending_count s
    + Watcher.qualifying_count trace.
Proof.
  revert s. induction trace as [|te trace IH]; intros s.
  - simpl. unfold Watcher.qualifying_count. simpl. lia.
  - change (Watcher.run s (te :: trace))
      with (Watcher.run (Watcher.step s te) trace).
    specialize (IH (Watcher.step s te)). rewrite qualifying_count_cons.
    unfold Watcher.step in *.
    pose proof (handle_pending te.2 te.1 (Watcher.advance te.1 s)) as Hp.
    pose proof (advance_balance te.1 s) as Ha.
    rewrite handle_keeps_spawned in IH. lia.
Qed.

(** X1: the process never starts more builds than it has received qualifying
    events. *)
Theorem builds_bounded_by_events (trace : list (Z * Watcher.event)) (T : Z) :
  length (Watcher.spawned (Watcher.advance T (Watcher.run Watcher.initial trace)))
  ≤ Watcher.qualifying_count trace.
Proof.
  pose proof (run_balance trace Watcher.initial) as Hr.
  pose proof (advance_balance T (Watcher.run Watcher.initial trace)) as Ha.
  simpl in Hr. lia.
Qed.




(** X3: while a build is in flight, however much time passes, the timer
    callback does not run, so no second build is started beside it. *)
Theorem no_build_beside_a_running_one
    (trace : list (Z * Watcher.event)) (T : Z) :
  Watcher.Building (Watcher.run Watcher.initial trace) →
  Watcher.advance T (Watcher.run Watcher.initial trace)
  = Watcher.run Watcher.initial trace.
Proof.
  intros Hb. apply WatcherFacts.advance_no_timer.
  by apply (WatcherFacts.run_invariant trace Watcher.initial).
Qed.

Lemma no_build_beside_a_running_one_witness :
  let trace :=
    [(0%Z, Watcher.Watch Watcher.SourceTree (Some "a.md"));
     (2100%Z, Watcher.Watch Watcher.SourceTree (Some "b.md"))] in
  Watcher.advance 3600000 (Watcher.run Watcher.initial trace)
  = Watcher.run Watcher.initial trace.
Proof.
  intros trace.
  apply (no_build_beside_a_running_one trace 3600000). reflexivity.
Defined.

(** X4: a build that cannot be spawned, or that ends with a code other than
    zero, is not tried again: the trigger is idle and waiting changes
    nothing; the next qualifying event starts a build two seconds after it. *)
Theorem failed_build_is_not_retried
    (s : Watcher.state) (tc : Z) (failure : Watcher.event)
    (t : Z) (e : Watcher.event) (T T' : Z) :
  Watcher.Building s →
  Watcher.buildTimeout s = None →
  (failure = Watcher.Error
   ∨ ∃ code, failure = Watcher.Close code ∧ code ≠ Some 0%Z) →
  Watcher.qualifying e = true →
  (t + 2000 ≤ T')%Z →
  let s1 := Watcher.step s (tc, failure) in
  Watcher.Idle s1
  ∧ Watcher.advance T s1 = s1
  ∧ Watcher.spawned s1 = Watcher.spawned s
  ∧ Watcher.spawned (Watcher.advance T' (Watcher.step s1 (t, e)))
    = Watcher.spawned s ++ [(t + 2000)%Z].
Proof.
  intros Hb Ht Hfail Hq HT' s1.
  assert (E1 : s1 = Watcher.handle failure tc s).
  { subst s1. unfold Watcher.step. cbn [fst snd].
    by rewrite WatcherFacts.advance_no_timer. }
  assert (Hidle : Watcher.Idle s1).
  { rewrite E1. destruct Hfail as [->|(code & -> & _)]; by split. }
  assert (Hsp : Watcher.spawned s1 = Watcher.spawned s).
  { rewrite E1. apply handle_keeps_spawned. }
  split; [exact Hidle|]. destruct Hidle as [Hb1 Ht1].
  split; [by apply WatcherFacts.advance_no_timer|]. split; [exact Hsp|].
  unfold Watcher.step. cbn [fst snd].
  rewrite (WatcherFacts.advance_no_timer t s1) by done.
  destruct (WatcherFacts.handle_qualifying e t s1 Hq Hb1) as (_ & Ht2 & Hs2).
  rewrite (WatcherFacts.advance_due T' (t + 2000)) by done.
  unfold Watcher.timerFires. cbn [Watcher.spawned]. by rewrite Hs2, Hsp.
Qed.

Lemma failed_build_is_not_retried_witness :
  let md f := Watcher.Watch Watcher.SourceTree (Some f) in
  let building := Watcher.advance 2000 (Watcher.run Watcher.initial [(0%Z, md "a.md")]) in
  let s1 := Watcher.step building (2300%Z, Watcher.Close (Some 1%Z)) in
  Watcher.Idle s1
  ∧ Watcher.spawned (Watcher.advance 9000 (Watcher.step s1 (7000%Z, md "a.md")))
    = [2000%Z; 9000%Z].
Proof.
  intros md building s1.
  destruct (failed_build_is_not_retried building 2300
              (Watcher.Close (Some 1%Z)) 7000 (md "a.md") 0 9000)
    as (Hidle & _ & _ & Hnext);
    [reflexivity | reflexivity | right; exists (Some 1%Z); by split
    | reflexivity | vm_compute; discriminate |].
  split; [exact Hidle | exact Hnext].
Defined.

(** ** scripts/mcp-build-hook.sh *)




Lemma find_md_no_markdown (junk : list Hook.stat) :
  Forall (λ f, endsWith (Hook.path f) ".md" = false) junk →
  Hook.find_md junk = [].
Proof.
  unfold Hook.find_md, Hook.tree. induction 1 as [|f junk Hf _ IH]; [done|].
  rewrite filter_cons, decide_False; [done | by rewrite Hf].
Qed.

(** X5: files that are not named [*.md] play no part in the check: with any
    number of them added to the source tree or to the build tree, whatever
    their modification times, the answer is the same. *)
Theorem only_markdown_files_count
    (source build junk1 junk2 junk3 junk4 : Hook.tree) :
  Forall (λ f, endsWith (Hook.path f) ".md" = false) (junk1 ++ junk2 ++ junk3 ++ junk4) →
  Hook.SOURCE_NEWER (Some (junk1 ++ source ++ junk2)) (Some (junk3 ++ build ++ junk4))
  = Hook.SOURCE_NEWER (Some source) (Some build).
Proof.
  unfold Hook.tree in *.
  intros H. apply Forall_app in H as [H1 H]. apply Forall_app in H as [H2 H].
  apply Forall_app in H as [H3 H4].
  unfold Hook.SOURCE_NEWER.
  assert (Hs : Hook.find_md (junk1 ++ source ++ junk2) = Hook.find_md source).
  { pose proof (find_md_no_markdown junk1 H1) as E1.
    pose proof (find_md_no_markdown junk2 H2) as E2.
    unfold Hook.find_md, Hook.tree in *. rewrite !filter_app, E1, E2.
    by rewrite app_nil_r. }
  assert (Hb : Hook.find_md (junk3 ++ build ++ junk4) = Hook.find_md build).
  { pose proof (find_md_no_markdown junk3 H3) as E3.
    pose proof (find_md_no_markdown junk4 H4) as E4.
    unfold Hook.find_md, Hook.tree in *. rewrite !filter_app, E3, E4.
    by rewrite app_nil_r. }
  by rewrite Hs, Hb.
Qed.

Lemma only_markdown_files_count_witness :
  Hook.SOURCE_NEWER
    (Some [Hook.Stat 900 "docs/source/gitbook/assets/logo.png";
           Hook.Stat 3 "docs/source/shared/architecture.md"])
    (Some [Hook.Stat 7 "docs/build/mcp/architecture.md";
           Hook.Stat 1 "docs/build/mcp/notes.txt"])
  = false.
Proof.
  etrans; [|reflexivity].
  apply (only_markdown_files_count
           [Hook.Stat 3 "docs/source/shared/architecture.md"]
           [Hook.Stat 7 "docs/build/mcp/architecture.md"]
           [Hook.Stat 900 "docs/source/gitbook/assets/logo.png"] [] []
           [Hook.Stat 1 "docs/build/mcp/notes.txt"]).
  repeat constructor.
Defined.






Lemma endsWith_longer (a b p : string) :
  endsWith b p = true → endsWith (a +:+ b) p = true.
Proof.
  intros [x ->]%JsFacts.endsWith_split.
  rewrite <- JsFacts.app_assoc'. apply JsFacts.endsWith_append.
Qed.



(** ** The monad of the emitters, continued *)

Lemma preserves_ret {A} P (a : A) : preserves P (ret a).
Proof. by intros w. Qed.

Lemma preserves_throw {A} P (cause : string) : preserves P (@throw A cause).
Proof. by intros w. Qed.

Lemma preserves_tell P (m : message) : preserves P (tell m).
Proof. by intros w. Qed.

Lemma preserves_writeFile (P : gmap string string → Prop) (name text : string) :
  (∀ o, P o → P (<[name := text]> o)) → preserves P (writeFile name text).
Proof. intros H w Hw. by apply H. Qed.

Lemma preserves_bind {A B} P (m : io A) (k : A → io B) :
  preserves P m → (∀ a, preserves P (k a)) → preserves P (Fs.bind m k).
Proof.
  intros Hm Hk w Hw. unfold Fs.bind. specialize (Hm w Hw).
  destruct (m w) as [[a|e] w1]; simpl in *; [by apply Hk | done].
Qed.

Lemma preserves_for_of {A} P (l : list A) (body : A → io unit) :
  (∀ x, x ∈ l → preserves P (body x)) → preserves P (for_of l body).
Proof.
  induction l as [|x l IH]; intros Hb; simpl; [apply preserves_ret|].
  apply preserves_bind; [apply Hb; by left|].
  intros _. apply IH. intros y Hy. apply Hb. by right.
Qed.

Lemma preserves_copy (P : gmap string string → Prop) (e : entry) (dest : string) :
  (∀ o name text, P o → P (<[name := text]> o)) → preserves P (copy e dest).
Proof.
  intros H. destruct e as [text|files]; simpl.
  - apply preserves_writeFile. intros o. apply H.
  - apply preserves_for_of. intros [rel text] _.
    apply preserves_writeFile. intros o. apply H.
Qed.

Lemma try_catch_out (body : io unit) (w : world) :
  out (try_catch body w).2 = out (body w).2.
Proof. unfold try_catch. by destruct (body w) as [[[]|e] w']. Qed.

Lemma try_catch_throws (body : io unit) (w : world) :
  (∃ cause w', body w = (inr cause, w')) →
  ∃ cause w', try_catch body w = (Exit1, w')
              ∧ last (console w') = Some (ErrorBuilding cause).
Proof.
  intros (cause & w' & E). unfold try_catch. rewrite E.
  exists cause. eexists. split; [done|]. simpl. by rewrite last_snoc.
Qed.

(** A loop throws when the body throws at one of the elements, at that
    element or before it. *)
Lemma for_of_throws {A} (l : list A) (body : A → io unit) (x : A) :
  x ∈ l → always_throws (body x) → always_throws (for_of l body).
Proof.
  intros Hx Hthrow. induction l as [|y l IH]; [by apply elem_of_nil in Hx|].
  intros w. simpl. unfold Fs.bind.
  destruct (body y w) as [[[]|e] w1] eqn:E.
  - apply elem_of_cons in Hx as [->|Hx].
    + destruct (Hthrow w) as (cause & w' & E'). congruence.
    + by apply IH.
  - by exists e, w1.
Qed.

(** ** scripts/build-mcp.js *)

(** X9: whatever the source directories hold and however the run ends, a
    run with a configuration leaves only files named [*.md] in the build
    directory. *)
Theorem metadata_build_holds_markdown_only
    (yaml : metadata → string) (parse_block : string → option file)
    (usageContent : string) (SOURCE_DIR : gmap string dir)
    (c : BuildMcp.config) (w : world) (p : string) :
  is_Some (out (BuildMcp.buildMCP yaml parse_block usageContent SOURCE_DIR (Some c) w).2
             !! p) →
  endsWith p ".md" = true.
Proof.
  set (P := λ o : gmap string string,
              ∀ q, is_Some (o !! q) → endsWith q ".md" = true).
  assert (Hins : ∀ o name text, endsWith name ".md" = true →
                   P o → P (<[name := text]> o)).
  { intros o name text Hname Ho q. destruct (decide (name = q)) as [<-|Hne].
    - done.
    - rewrite lookup_insert_ne by done. apply Ho. }
  assert (Hfiles : ∀ category, preserves P
            (BuildMcp.processFiles yaml parse_block SOURCE_DIR category c)).
  { intros category. unfold BuildMcp.processFiles.
    destruct (SOURCE_DIR !! category) as [d|]; [|apply preserves_tell].
    apply preserves_for_of. intros name _. unfold BuildMcp.processFile.
    destruct (endsWith name ".md") eqn:Hmd; [|apply preserves_ret]. simpl.
    apply preserves_bind.
    { unfold readFileIn. destruct (lookup_entry name d) as [[]|];
        [apply preserves_ret | apply preserves_throw ..]. }
    intros content. apply preserves_bind.
    { unfold BuildMcp.matter_stringify.
      destruct (stringify _ _ _ _); [apply preserves_ret | apply preserves_throw]. }
    intros text. apply preserves_bind; [|intros _; apply preserves_tell].
    apply preserves_writeFile. intros o. by apply Hins. }
  set (body := BuildMcp.processSharedFiles yaml parse_block SOURCE_DIR c ;;
               BuildMcp.processMCPOnlyFiles yaml parse_block SOURCE_DIR c ;;
               BuildMcp.generateUsageInstructions usageContent ;;
               tell (Log "MCP documentation built successfully!") ;;
               tell (Log "Output directory: docs/build/mcp")).
  set (w0 := World ∅ (console w ++ [Log "Building MCP documentation..."])).
  change (BuildMcp.buildMCP yaml parse_block usageContent SOURCE_DIR (Some c) w)
    with (try_catch body w0).
  rewrite try_catch_out.
  assert (Hbody : preserves P body).
  { apply preserves_bind; [apply Hfiles | intros _].
    apply preserves_bind; [apply Hfiles | intros _].
    apply preserves_bind; [|intros _].
    - apply preserves_bind; [|intros _; apply preserves_tell].
      apply preserves_writeFile. intros o. by apply Hins.
    - apply preserves_bind; [apply preserves_tell | intros _; apply preserves_tell]. }
  apply (Hbody w0). intros q [x Hx]. simpl in Hx. by rewrite lookup_empty in Hx.
Qed.

Lemma metadata_build_holds_markdown_only_witness :
  is_Some (out (Repo.buildMCP Repo.SOURCE_DIR (Some Repo.mcp_config) fresh).2
             !! "code-review.md")
  ∧ endsWith "code-review.md" ".md" = true.
Proof.
  assert (H : is_Some (out (Repo.buildMCP Repo.SOURCE_DIR
                              (Some Repo.mcp_config) fresh).2 !! "code-review.md")).
  { vm_compute. eexists. reflexivity. }
  split; [exact H|].
  exact (metadata_build_holds_markdown_only Repo.block_yaml Repo.no_parser
           Repo.usageContent Repo.SOURCE_DIR Repo.mcp_config fresh
           "code-review.md" H).
Defined.



(** The body of the loop throws at an entry named [*.md] that is a folder,
    or a file whose front matter does not parse. *)
Lemma processFile_throws
    (yaml : metadata → string) (parse_block : string → option file)
    (category : string) (c : BuildMcp.config) (d : dir) (name : string) :
  endsWith name ".md" = true →
  ((∃ files, lookup_entry name d = Some (Folder files))
   ∨ (∃ content, lookup_entry name d = Some (File content)
                 ∧ matter parse_block content = None)) →
  always_throws (BuildMcp.processFile yaml parse_block category c d name).
Proof.
  intros Hmd Hbad w. unfold BuildMcp.processFile. rewrite Hmd. simpl.
  unfold Fs.bind, readFileIn.
  destruct Hbad as [[files ->] | (content & -> & Hparse)]; simpl.
  - by eexists _, _.
  - unfold BuildMcp.matter_stringify, stringify. rewrite Hparse. simpl.
    by eexists _, _.
Qed.

(** X11: a run stops with exit status 1, and reports the error last, when
    [shared] or [mcp] holds an entry named [*.md] that is a directory, or a
    file whose own front matter does not parse. *)
Theorem unreadable_markdown_entry_fails_the_build
    (yaml : metadata → string) (parse_block : string → option file)
    (usageContent : string) (SOURCE_DIR : gmap string dir)
    (c : BuildMcp.config) (w : world)
    (category : string) (d : dir) (name : string) :
  category = "shared" ∨ category = "mcp" →
  SOURCE_DIR !! category = Some d →
  endsWith name ".md" = true →
  ((∃ files, lookup_entry name d = Some (Folder files))
   ∨ (∃ content, lookup_entry name d = Some (File content)
                 ∧ matter parse_block content = None)) →
  ∃ cause w',
    BuildMcp.buildMCP yaml parse_block usageContent SOURCE_DIR (Some c) w
    = (Exit1, w')
    ∧ last (console w') = Some (ErrorBuilding cause).
Proof.
  intros Hcat Hd Hmd Hbad.
  assert (Hthrows : always_throws
            (BuildMcp.processFiles yaml parse_block SOURCE_DIR category c)).
  { unfold BuildMcp.processFiles. rewrite Hd.
    apply (for_of_throws _ _ name).
    - apply McpFacts.lookup_entry_readdir.
      destruct Hbad as [[files ->] | (content & -> & _)]; by eexists.
    - by apply processFile_throws. }
  set (body := BuildMcp.processSharedFiles yaml parse_block SOURCE_DIR c ;;
               BuildMcp.processMCPOnlyFiles yaml parse_block SOURCE_DIR c ;;
               BuildMcp.generateUsageInstructions usageContent ;;
               tell (Log "MCP documentation built successfully!") ;;
               tell (Log "Output directory: docs/build/mcp")).
  set (w0 := World ∅ (console w ++ [Log "Building MCP documentation..."])).
  change (BuildMcp.buildMCP yaml parse_block usageContent SOURCE_DIR (Some c) w)
    with (try_catch body w0).
  apply try_catch_throws. subst body. unfold Fs.bind at 1.
  unfold BuildMcp.processSharedFiles.
  destruct Hcat as [-> | ->].
  - destruct (Hthrows w0) as (cause & w' & ->). by exists cause, w'.
  - destruct (BuildMcp.processFiles yaml parse_block SOURCE_DIR "shared" c w0)
      as [[[]|e] w1]; [|by exists e, w1].
    unfold Fs.bind at 1. unfold BuildMcp.processMCPOnlyFiles.
    destruct (Hthrows w1) as (cause & w' & ->). by exists cause, w'.
Qed.

Lemma unreadable_markdown_entry_fails_the_build_witness :
  let src : gmap string dir :=
    {[ "shared" := [("architecture.md", File Repo.architecture_md)];
       "mcp" := [("drafts.md", Folder [("one.txt", "draft")])] ]} in
  ∃ cause w',
    Repo.buildMCP src (Some Repo.mcp_config) fresh = (Exit1, w')
    ∧ last (console w') = Some (ErrorBuilding cause).
Proof.
  intros src.
  apply (unreadable_markdown_entry_fails_the_build Repo.block_yaml Repo.no_parser
           Repo.usageContent src Repo.mcp_config fresh "mcp"
           [("drafts.md", Folder [("one.txt", "draft")])] "drafts.md").
  - by right.
  - vm_compute. reflexivity.
  - reflexivity.
  - left. by eexists.
Defined.

Lemma newline_ends_with_LF (s : string) : endsWith (newline s) LF = true.
Proof.
  unfold newline. destruct (endsWith s LF) eqn:E; [done|].
  apply JsFacts.endsWith_append.
Qed.

Lemma emitted_ends_with_LF
    (yaml : metadata → string) (parse_block : string → option file)
    (SOURCE_DIR : gmap string dir) (c : BuildMcp.config)
    (category name text : string) :
  BuildMcp.emitted yaml parse_block SOURCE_DIR c category name = Some text →
  endsWith text LF = true.
Proof.
  unfold BuildMcp.emitted, BuildMcp.emitted_in.
  destruct (SOURCE_DIR !! category) as [d|]; simpl; [|done].
  destruct (lookup_entry name d) as [[content|]|]; [|done..].
  destruct (endsWith name ".md"); [|done].
  unfold stringify. destruct (matter parse_block content) as [f|]; [|done].
  intros [= <-]. unfold stringify_file.
  apply endsWith_longer, newline_ends_with_LF.
Qed.

(** X12: after a run that completes, every file of the build directory
    other than the usage instructions ends with a line feed, whether its
    source did or not. *)
Theorem built_files_end_with_line_feed
    (yaml : metadata → string) (parse_block : string → option file)
    (usageContent : string) (SOURCE_DIR : gmap string dir)
    (c : BuildMcp.config) (w : world) (name text : string) :
  BuildMcp.readable parse_block SOURCE_DIR "shared" = true →
  BuildMcp.readable parse_block SOURCE_DIR "mcp" = true →
  name ≠ "markdown-rules.md" →
  out (BuildMcp.buildMCP yaml parse_block usageContent SOURCE_DIR (Some c) w).2
    !! name = Some text →
  endsWith text LF = true.
Proof.
  intros Hs Hm Hname.
  destruct (McpFacts.buildMCP_output yaml parse_block usageContent SOURCE_DIR c w
              Hs Hm) as (w' & -> & Hout).
  cbn [snd]. rewrite Hout. unfold BuildMcp.expected_output.
  destruct (String.eqb_spec name "markdown-rules.md"); [done|].
  destruct (BuildMcp.emitted yaml parse_block SOURCE_DIR c "mcp" name) as [x|] eqn:E.
  - intros [= <-]. by eapply emitted_ends_with_LF.
  - intros E'. by eapply emitted_ends_with_LF.
Qed.

Lemma built_files_end_with_line_feed_witness :
  let src : gmap string dir := {[ "mcp" := [("notes.md", File "no line feed")] ]} in
  let text := Repo.lines ["---"; "description: General project documentation";
                          "---"; "no line feed"] in
  out (Repo.buildMCP src (Some Repo.mcp_config) fresh).2 !! "notes.md" = Some text
  ∧ endsWith text LF = true.
Proof.
  intros src text.
  assert (H : out (Repo.buildMCP src (Some Repo.mcp_config) fresh).2 !! "notes.md"
              = Some text).
  { vm_compute. reflexivity. }
  split; [exact H|].
  apply (built_files_end_with_line_feed Repo.block_yaml Repo.no_parser
           Repo.usageContent src Repo.mcp_config fresh "notes.md" text);
    [vm_compute; reflexivity .. | discriminate | exact H].
Defined.

(** ** scripts/build-gitbook.js *)







(** X15: every run of the publishing emitter with a configuration leaves a
    README.md and a SUMMARY.md, whatever the manifest and the sources are. *)
Theorem publishing_build_has_readme_and_summary
    (SOURCE_DIR : gmap string dir) (today : string)
    (c : BuildGitbook.config) (w : world) :
  let after := (BuildGitbook.buildGitBook SOURCE_DIR today (Some c) w).2 in
  is_Some (out after !! "README.md") ∧ is_Some (out after !! "SUMMARY.md").
Proof.
  set (P := λ o : gmap string string,
              is_Some (o !! "README.md") ∧ is_Some (o !! "SUMMARY.md")).
  assert (Hins : ∀ o name text, P o → P (<[name := text]> o)).
  { intros o name text [Hr Hs]. split; rewrite lookup_insert_is_Some'; by right. }
  set (rest := BuildGitbook.copySourceFiles SOURCE_DIR c ;;
               BuildGitbook.copyAssets SOURCE_DIR ;;
               tell (Log "GitBook documentation built successfully!") ;;
               tell (Log "Output directory: docs/build/gitbook")).
  set (w0 := World (<["SUMMARY.md" := BuildGitbook.summaryContent c]>
                      (<["README.md" := BuildGitbook.readmeContent today c]> ∅))
               (console w ++ [Log "Building GitBook documentation...";
                              Generated "README.md"; Generated "SUMMARY.md"])).
  assert (Hrun : BuildGitbook.buildGitBook SOURCE_DIR today (Some c) w
                 = try_catch rest w0).
  { unfold BuildGitbook.buildGitBook, try_catch, Fs.bind, BuildGitbook.generateReadme,
      BuildGitbook.generateSummary, Fs.bind.
    unfold tell at 1 2 3, readJson, ret, emptyDir, writeFile. cbn [out console].
    subst rest w0. unfold Fs.bind. by rewrite <- !app_assoc. }
  assert (Hrest : preserves P rest).
  { apply preserves_bind; [|intros _].
    - apply preserves_for_of. intros i _. unfold BuildGitbook.copySourceFile.
      cbn zeta. destruct (BuildGitbook.sourcePath _ _ _);
        [|apply preserves_tell].
      apply preserves_bind; [by apply preserves_copy|].
      intros _. apply preserves_tell.
    - apply preserves_bind; [|intros _].
      + unfold BuildGitbook.copyAssets.
        apply preserves_bind; [|intros _];
          destruct (BuildGitbook.sourcePath _ _ _); try apply preserves_ret;
          (apply preserves_bind; [by apply preserves_copy|]);
          intros _; apply preserves_tell.
      + apply preserves_bind; [apply preserves_tell | intros _; apply preserves_tell]. }
  intros after. subst after. rewrite Hrun, try_catch_out.
  apply (Hrest w0). subst P w0. cbn [out].
  split; rewrite !lookup_insert_is_Some'; tauto.
Qed.





(** ** scripts/build-docs.sh *)






(** X18: running the full build script a second time, on the same day and
    with the same sources and configurations, ends the same way and leaves
    both build directories as the first run left them, also when a run
    fails. *)
Theorem build_docs_twice_is_build_docs_once
    (yaml : metadata → string) (parse_block : string → option file)
    (usageContent : string) (SOURCE_DIR : gmap string dir) (today : string)
    (gitbookConfig : option BuildGitbook.config)
    (mcpConfig : option BuildMcp.config) (dependencies : bool)
    (s : BuildDocs.site) :
  let script := BuildDocs.build_docs yaml parse_block usageContent SOURCE_DIR today
                  gitbookConfig mcpConfig dependencies in
  (script (script s).2).1 = (script s).1
  ∧ BuildDocs.gitbook_dir (script (script s).2).2 = BuildDocs.gitbook_dir (script s).2
  ∧ BuildDocs.mcp_dir (script (script s).2).2 = BuildDocs.mcp_dir (script s).2.
Proof.
  intros script. subst script.
  destruct dependencies; [|done].
  destruct gitbookConfig as [cg|]; [|done].
  set (script := BuildDocs.build_docs yaml parse_block usageContent SOURCE_DIR today
                   (Some cg) mcpConfig true).
  set (G := out (BuildGitbook.buildGitBook SOURCE_DIR today (Some cg) fresh).2).
  assert (HG : ∀ x, ∃ l, BuildGitbook.buildGitBook SOURCE_DIR today (Some cg) x
                         = (Success, World G l)).
  { intros x.
    destruct (GitbookFacts.buildGitBook_spec SOURCE_DIR today cg x) as (o & l & E & _).
    pose proof (FsFacts.forgets_try_catch _ x fresh
                  (GitbookFacts.forgets_build_gitbook SOURCE_DIR today cg)) as [_ Ho].
    change (try_catch _) with (BuildGitbook.buildGitBook SOURCE_DIR today (Some cg))
      in Ho.
    fold G in Ho. rewrite E in Ho |- *. cbn [snd out] in Ho. subst o. by eexists. }
  destruct mcpConfig as [cm|].
  - set (mcp := BuildMcp.buildMCP yaml parse_block usageContent SOURCE_DIR (Some cm)).
    assert (HM : ∀ x, ∃ l, mcp x = ((mcp fresh).1, World (out (mcp fresh).2) l)).
    { intros x.
      pose proof (FsFacts.forgets_try_catch _ x fresh
                    (McpFacts.forgets_build_mcp yaml parse_block usageContent
                       SOURCE_DIR cm)) as [Hst Ho].
      change (try_catch _) with mcp in Hst, Ho.
      exists (console (mcp x).2). rewrite <- Hst, <- Ho.
      by destruct (mcp x) as [st [o l]]. }
    assert (Hform : ∀ x, ∃ t,
              script x = ((mcp fresh).1, BuildDocs.Site G (out (mcp fresh).2) t)).
    { intros x. subst script.
      unfold BuildDocs.build_docs, BuildDocs.node_build_gitbook, BuildDocs.node_build_mcp.
      cbn [negb].
      destruct (HG (World (BuildDocs.gitbook_dir x) (BuildDocs.terminal x))) as [l ->].
      cbn [fst snd out console BuildDocs.gitbook_dir BuildDocs.mcp_dir
           BuildDocs.terminal].
      fold mcp. destruct (HM (World (BuildDocs.mcp_dir x) l)) as [l' ->].
      by eexists. }
    destruct (Hform s) as [t ->]. cbn [snd].
    by destruct (Hform (BuildDocs.Site G (out (mcp fresh).2) t)) as [t' ->].
  - assert (Hform : ∀ x, ∃ t,
              script x = (Exit1, BuildDocs.Site G (BuildDocs.mcp_dir x) t)).
    { intros x. subst script.
      unfold BuildDocs.build_docs, BuildDocs.node_build_gitbook, BuildDocs.node_build_mcp.
      cbn [negb].
      destruct (HG (World (BuildDocs.gitbook_dir x) (BuildDocs.terminal x))) as [l ->].
      cbn [fst snd out console BuildDocs.gitbook_dir BuildDocs.mcp_dir
           BuildDocs.terminal].
      by eexists. }
    destruct (Hform s) as [t ->]. cbn [snd].
    by destruct (Hform (BuildDocs.Site G (BuildDocs.mcp_dir s) t)) as [t' ->].
Qed.
